(** * passport-google-googleapis: the GoogleAPIs strategy of [src/index.js]

    A shallow embedding of the strategy (constructor, [authenticate],
    [authorizationParams], [parseErrorResponse], [_createOAuthError]) and the
    properties of its natural-language specification.

    - JavaScript values are the inductive type [value]; an object is a finite
      map from property names to values.
    - A JavaScript test [if (x)] is [truthy x]; a property read [x.k] is
      [get_prop x k], which throws on [undefined] and [null].
    - Code that may throw runs in [completion]; [authenticate], which also
      mutates the OAuth2 client and calls the actions that Passport attaches
      to the strategy ([success], [fail], [error], [redirect]), runs in [M]:
      state passing over [world], a trace of [event]s and a completion.
    - The collaborators that are not part of this repository (the OAuth2
      client, the profile endpoint, the verify callback of the application,
      [JSON.parse]) are the fields of [Env]; every theorem holds for every
      [Env]. *)

From Stdlib Require Import ZArith String Ascii List Lia.
From stdpp Require Import base option list gmap strings.
Import ListNotations.
Local Open Scope string_scope.
Local Open Scope Z_scope.
Local Open Scope list_scope.

(** ** Values *)

#[warnings="-register-all"]
Inductive value : Type :=
| VUndef
| VNull
| VBool (b : bool)
| VNum (n : Z)
| VStr (s : string)
| VObj (props : gmap string value)
| VArr (items : list value)
| VFun (fname : string) (arity : Z)
| VError (cls : string) (args : list value).

(** [VFun f n] is a function: [f] identifies it and [n] is its declared
    parameter count (its [length]).  [VError cls args] is the object built by
    [new cls(args...)] for an error class [cls].  Numbers are integers: the
    program never computes with a number, it tests and compares them. *)

Definition new_Error (args : list value) : value := VError "Error" args.
Definition new_TypeError (msg : string) : value := VError "TypeError" [VStr msg].

(** ToBoolean. *)
Definition truthy (v : value) : bool :=
  match v with
  | VUndef | VNull => false
  | VBool b => b
  | VNum n => negb (Z.eqb n 0)
  | VStr s => negb (String.eqb s "")
  | VObj _ | VArr _ | VFun _ _ | VError _ _ => true
  end.

Definition nullish (v : value) : bool :=
  match v with
  | VUndef | VNull => true
  | _ => false
  end.

(** [v === 'lit'] and [v === n]. *)
Definition strict_eq_str (v : value) (lit : string) : bool :=
  match v with
  | VStr s => String.eqb s lit
  | _ => false
  end.

Definition strict_eq_num (v : value) (n : Z) : bool :=
  match v with
  | VNum m => Z.eqb m n
  | _ => false
  end.

(** [typeof v === 'function'] *)
Definition is_function (v : value) : bool :=
  match v with
  | VFun _ _ => true
  | _ => false
  end.

(** [a || b] on values. *)
Definition js_or (a b : value) : value := if truthy a then a else b.

(** The value of [v.k] for a [v] that is neither [undefined] nor [null],
    for the property names this program reads ([query], [error], [code],
    [scope], [statusCode], [length], ...): own properties of objects, the
    [length] of strings, arrays and functions; none of the other names is
    defined on a built-in prototype. *)
Definition prop (v : value) (k : string) : value :=
  match v with
  | VObj m => default VUndef (m !! k)
  | VStr s => if String.eqb k "length" then VNum (Z.of_nat (String.length s)) else VUndef
  | VArr l => if String.eqb k "length" then VNum (Z.of_nat (List.length l)) else VUndef
  | VFun _ n => if String.eqb k "length" then VNum n else VUndef
  | _ => VUndef
  end.

(** The message of an error object built by this program, when its first
    argument is a string or is missing (then the message is the empty one of
    the prototype).  Other first arguments go through ToString, which this
    development does not model. *)
Definition error_message (e : value) : option string :=
  match e with
  | VError _ (VStr s :: _) => Some s
  | VError _ [] | VError _ (VUndef :: _) => Some ""
  | _ => None
  end.

(** ** Completions: code that returns or throws *)

Inductive completion (A : Type) : Type :=
| Normal (a : A)
| Throw (ex : value).
Arguments Normal {A} a.
Arguments Throw {A} ex.

#[global] Instance completion_ret : MRet completion := fun A a => Normal a.
#[global] Instance completion_bind : MBind completion := fun A B f c =>
  match c with
  | Normal a => f a
  | Throw ex => Throw ex
  end.

(** [try { c } catch (ex) { h ex }] *)
Definition try_catch {A} (c : completion A) (h : value -> completion A) : completion A :=
  match c with
  | Normal a => Normal a
  | Throw ex => h ex
  end.

Definition get_prop (v : value) (k : string) : completion value :=
  if nullish v then Throw (new_TypeError "Cannot read properties of undefined or null")
  else Normal (prop v k).

(** [a && a.k], as in [req.query && req.query.error]. *)
Definition and_prop (a : value) (k : string) : completion value :=
  if truthy a then get_prop a k else Normal a.

(** ** The strategy object and its collaborators *)

(** The client made by [new google.auth.OAuth2(clientID, clientSecret,
    redirectURL)]: the three constructor arguments and the credentials that
    [setCredentials] stores. *)
Record OAuth2Client : Type := {
  clientID : value;
  clientSecret : value;
  redirectURL : value;
  credentials : value
}.

(** The properties of a strategy object that the program reads or writes.
    A property that was never assigned reads as [VUndef]. *)
Record Strategy : Type := {
  name : value;
  _verify : value;
  oauth2Client : OAuth2Client;
  _passReqToCallback : value;
  _scope : value
}.

(** The arguments [(err, user, info)] of one call of [verified]. *)
Definition done_call : Type := value * value * value.

(** What one call of the verify callback does: the calls of [verified] it
    makes before it returns, the exception it throws instead of returning
    (if any), and the calls of [verified] it makes later (from a timer, a
    database callback, ...). *)
Record verify_run : Type := {
  sync_done : list done_call;
  raised : option value;
  later_done : list done_call
}.

(** The collaborators.  [getToken c code] and [userinfo_get c] list the
    [(err, result)] pairs with which the collaborator invokes the callback it
    was given, in order (usually one).  [call f args] is the behaviour of the
    application function [f] on [args].  [JSON_parse text] is [None] when
    [JSON.parse] throws. *)
Record Env : Type := {
  JSON_parse : value -> option value;
  generateAuthUrl : OAuth2Client -> value -> value;
  getToken : OAuth2Client -> value -> list (value * value);
  userinfo_get : OAuth2Client -> list (value * value);
  call : string -> list value -> verify_run
}.

(** What an invocation does to the outside, in order. *)
Inductive event : Type :=
| EvSuccess (user info : value)
| EvFail (challenge : value)
| EvError (err : value)
| EvRedirect (url : value)
| EvGetToken (code : value)
| EvSetCredentials (tokens : value)
| EvUserinfoGet (auth : OAuth2Client)
| EvVerify (args : list value)
| EvUncaught (ex : value).

(** The state: the strategy object and the calls of [verified] that the
    verify callback has scheduled for later. *)
Record world : Type := {
  self : Strategy;
  tasks : list done_call
}.

(** ** The monad of [authenticate] *)

Definition result (A : Type) : Type := list event * world * completion A.
Definition M (A : Type) : Type := world -> result A.

Definition prepend {A} (t : list event) (r : result A) : result A :=
  let '(t', w, c) := r in (t ++ t', w, c).

#[global] Instance M_ret : MRet M := fun A a w => ([], w, Normal a).
#[global] Instance M_bind : MBind M := fun A B f m w =>
  match m w with
  | (t, w', Normal a) => prepend t (f a w')
  | (t, w', Throw ex) => (t, w', Throw ex)
  end.

Definition emit (e : event) : M unit := fun w => ([e], w, Normal tt).
Definition lift {A} (c : completion A) : M A := fun w => ([], w, c).
Definition throw {A} (ex : value) : M A := lift (Throw ex).
Definition get_self : M Strategy := fun w => ([], w, Normal (self w)).
Definition put_self (s : Strategy) : M unit :=
  fun w => ([], {| self := s; tasks := tasks w |}, Normal tt).
Definition schedule (l : list done_call) : M unit :=
  fun w => ([], {| self := self w; tasks := tasks w ++ l |}, Normal tt).
Definition take_tasks : M (list done_call) :=
  fun w => ([], {| self := self w; tasks := [] |}, Normal (tasks w)).

(** [try { m } catch (ex) { h ex }] *)
Definition try_catchM {A} (m : M A) (h : value -> M A) : M A := fun w =>
  match m w with
  | (t, w', Normal a) => (t, w', Normal a)
  | (t, w', Throw ex) => prepend t (h ex w')
  end.

Fixpoint for_each {A} (l : list A) (k : A -> M unit) : M unit :=
  match l with
  | [] => mret tt
  | a :: rest => k a ;; for_each rest k
  end.

(** One invocation on a strategy with no call of [verified] pending. *)
Definition run {A} (m : M A) (s : Strategy) : result A :=
  m {| self := s; tasks := [] |}.

Definition trace_of {A} (r : result A) : list event := r.1.1.
Definition final_self {A} (r : result A) : Strategy := self r.1.2.
Definition completion_of {A} (r : result A) : completion A := r.2.

(** The terminal actions of Passport: the three outcomes, and the redirect. *)
Definition is_outcome (e : event) : bool :=
  match e with
  | EvSuccess _ _ | EvFail _ | EvError _ => true
  | _ => false
  end.

Definition is_redirect (e : event) : bool :=
  match e with
  | EvRedirect _ => true
  | _ => false
  end.

Definition is_profile_fetch (e : event) : bool :=
  match e with
  | EvUserinfoGet _ => true
  | _ => false
  end.

Definition is_verify (e : event) : bool :=
  match e with
  | EvVerify _ => true
  | _ => false
  end.

Definition is_terminal (e : event) : bool := is_outcome e || is_redirect e.

Definition is_uncaught (e : event) : bool :=
  match e with
  | EvUncaught _ => true
  | _ => false
  end.

Definition outcomes (t : list event) : list event := List.filter is_outcome t.
Definition count (p : event -> bool) (t : list event) : nat :=
  List.length (List.filter p t).

(** The strategy after [setCredentials(tokens)] on its client. *)
Definition with_credentials (s : Strategy) (tokens : value) : Strategy :=
  let c := oauth2Client s in
  {| name := name s; _verify := _verify s;
     oauth2Client := {| clientID := clientID c; clientSecret := clientSecret c;
                        redirectURL := redirectURL c; credentials := tokens |};
     _passReqToCallback := _passReqToCallback s; _scope := _scope s |}.

(** ** The program *)

(** [function GoogleAPIsStrategy(options, verify)], lines 7-49.  The base
    constructor [passport.Strategy] assigns nothing. *)
Definition GoogleAPIsStrategy (options verify : value) : completion Strategy :=
  let verify := if is_function options then options else verify in
  let options := if is_function options then VUndef else options in
  let options := js_or options (VObj ∅) in
  if negb (truthy verify) then
    Throw (new_TypeError "GoogleAPIsStrategy requires a verify callback")
  else
  id ← get_prop options "clientID";
  if negb (truthy id) then
    Throw (new_TypeError "GoogleAPIsStrategy requires a clientID option")
  else
  secret ← get_prop options "clientSecret";
  if negb (truthy secret) then
    Throw (new_TypeError "GoogleAPIsStrategy requires a clientSecret option")
  else
  url ← get_prop options "redirectURL";
  if negb (truthy url) then
    Throw (new_TypeError "GoogleAPIsStrategy requires a redirectURL option")
  else
  Normal {| name := VStr "googleapis";
            _verify := verify;
            oauth2Client := {| clientID := id; clientSecret := secret;
                               redirectURL := url; credentials := VObj ∅ |};
            _passReqToCallback := VUndef;
            _scope := VUndef |}.

(** [authorizationParams(options)], lines 168-187. *)
Definition authorizationParams (this : Strategy) (options : value) : completion value :=
  let params : gmap string value := ∅ in
  s ← get_prop options "scope";
  let scope := js_or s (_scope this) in
  let params := if truthy scope then <["scope" := scope]> params else params in
  a ← get_prop options "accessType";
  b ← (if truthy a then Normal a else get_prop options "access_type");
  let params := if truthy b then <["access_type" := b]> params else params in
  Normal (VObj params).

Section Program.

Variable E : Env.

(** [parseErrorResponse(body, status)], lines 190-202. *)
Definition parseErrorResponse (body status : value) : completion value :=
  json ← match JSON_parse E body with
         | Some j => Normal j
         | None => Throw (VError "SyntaxError" [])
         end;
  e ← get_prop json "error";
  if truthy e then
    d ← get_prop json "error_description";
    u ← get_prop json "error_uri";
    Normal (new_Error [d; e; u])
  else Normal VNull.

(** [_createOAuthError(message, err)], lines 205-224. *)
Definition _createOAuthError (message err : value) : completion value :=
  let e := VUndef in
  sc ← get_prop err "statusCode";
  cond ← (if truthy sc then get_prop err "data" else Normal sc);
  e ← (if truthy cond then
         try_catch (data ← get_prop err "data";
                    status ← get_prop err "statusCode";
                    parseErrorResponse data status)
                   (fun _ => Normal e)
       else Normal e);
  if negb (truthy e) then Normal (new_Error [message; err]) else Normal e.

(** [function verified(err, user, info)], lines 112-127. *)
Definition verified (d : done_call) : M unit :=
  let '(err, user, info) := d in
  if truthy err then emit (EvError err)
  else if negb (truthy user) then emit (EvFail info)
  else emit (EvSuccess user info).

(** The function value [verified] as the verify callback receives it. *)
Definition verified_fn : value := VFun "verified" 3.

(** The event loop runs the callback of a collaborator once per reply; an
    exception that escapes the callback is uncaught; then the calls of
    [verified] that were scheduled meanwhile run. *)
Fixpoint async {A} (replies : list A) (k : A -> M unit) : M unit :=
  match replies with
  | [] => mret tt
  | r :: rest =>
      try_catchM (k r) (fun ex => emit (EvUncaught ex));;
      (ts ← take_tasks; for_each ts verified);;
      async rest k
  end.

(** [self.oauth2Client.setCredentials(tokens)] *)
Definition setCredentials (tokens : value) : M unit :=
  s ← get_self;
  emit (EvSetCredentials tokens);;
  put_self (with_credentials s tokens).

(** [self._verify(args...)] *)
Definition apply_verify (fn : value) (args : list value) : M unit :=
  match fn with
  | VFun f _ =>
      emit (EvVerify args);;
      let r := call E f args in
      schedule (later_done r);;
      for_each (sync_done r) verified;;
      match raised r with
      | Some ex => throw ex
      | None => mret tt
      end
  | _ => throw (new_TypeError "self._verify is not a function")
  end.

(** The callback given to [oauth2.userinfo.get], lines 104-152. *)
Definition on_profile (req accessToken refreshToken : value) (reply : value * value) : M unit :=
  let '(err, profile) := reply in
  if truthy err then emit (EvError err)
  else
    try_catchM
      (s ← get_self;
       if truthy (_passReqToCallback s) then
         arity ← lift (get_prop (_verify s) "length");
         if strict_eq_num arity 6 then
           apply_verify (_verify s) [req; accessToken; refreshToken; VObj ∅; profile; verified_fn]
         else
           apply_verify (_verify s) [req; accessToken; refreshToken; profile; verified_fn]
       else
         arity ← lift (get_prop (_verify s) "length");
         if strict_eq_num arity 5 then
           apply_verify (_verify s) [accessToken; refreshToken; VObj ∅; profile; verified_fn]
         else
           apply_verify (_verify s) [accessToken; refreshToken; profile; verified_fn])
      (fun ex => emit (EvError ex)).

(** The callback given to [getToken], lines 89-153. *)
Definition on_tokens (req : value) (reply : value * value) : M unit :=
  let '(err, tokens) := reply in
  if truthy err then
    e ← lift (_createOAuthError (VStr "Failed to obtain access token") err);
    emit (EvError e)
  else
    accessToken ← lift (get_prop tokens "access_token");
    rt ← lift (get_prop tokens "refresh_token");
    let refreshToken := js_or rt VNull in
    setCredentials tokens;;
    s ← get_self;
    emit (EvUserinfoGet (oauth2Client s));;
    async (userinfo_get E (oauth2Client s)) (on_profile req accessToken refreshToken).

(** [authenticate(req, options)], lines 63-165. *)
Definition authenticate (req options : value) : M unit :=
  let options := js_or options (VObj ∅) in
  query ← lift (get_prop req "query");
  error ← lift (and_prop query "error");
  if truthy error then
    if strict_eq_str error "access_denied" then
      d ← lift (get_prop query "error_description");
      emit (EvFail (VObj {[ "message" := d ]}))
    else
      d ← lift (get_prop query "error_description");
      c ← lift (get_prop query "error");
      u ← lift (get_prop query "error_uri");
      emit (EvError (new_Error [d; c; u]))
  else
  code ← lift (and_prop query "code");
  if truthy code then
    s ← get_self;
    emit (EvGetToken code);;
    async (getToken E (oauth2Client s) code) (on_tokens req)
  else
    s ← get_self;
    params ← lift (authorizationParams s options);
    let location := generateAuthUrl E (oauth2Client s) params in
    emit (EvRedirect location).

End Program.

(** ** A JSON reader, to run the program on concrete payloads

    An instance for [JSON_parse]: JSON texts with integer numbers and the
    two-character escapes.  The theorems below hold for every [Env]; this
    reader is what the concrete runs use. *)
Module Json.

Definition dquote : ascii := "034"%char.
Definition backslash : ascii := "092"%char.

Definition is_ws (c : ascii) : bool :=
  let n := nat_of_ascii c in
  (Nat.eqb n 32 || Nat.eqb n 9 || Nat.eqb n 10 || Nat.eqb n 13)%bool.

Definition is_digit (c : ascii) : bool :=
  let n := nat_of_ascii c in (Nat.leb 48 n && Nat.leb n 57)%bool.

Definition digit_val (c : ascii) : Z := Z.of_nat (nat_of_ascii c) - 48.

Fixpoint skip_ws (l : list ascii) : list ascii :=
  match l with
  | c :: r => if is_ws c then skip_ws r else l
  | [] => []
  end.

Fixpoint starts_with (p l : list ascii) : option (list ascii) :=
  match p, l with
  | [], _ => Some l
  | a :: p', b :: l' => if Ascii.eqb a b then starts_with p' l' else None
  | _ :: _, [] => None
  end.

Definition unescape (c : ascii) : option ascii :=
  if Ascii.eqb c dquote then Some dquote
  else if Ascii.eqb c backslash then Some backslash
  else if Ascii.eqb c "/" then Some "/"%char
  else if Ascii.eqb c "n" then Some "010"%char
  else if Ascii.eqb c "t" then Some "009"%char
  else if Ascii.eqb c "r" then Some "013"%char
  else if Ascii.eqb c "b" then Some "008"%char
  else if Ascii.eqb c "f" then Some "012"%char
  else None.

(** The characters of a string literal after its opening quote. *)
Fixpoint string_body (l : list ascii) : option (string * list ascii) :=
  match l with
  | [] => None
  | c :: r =>
      if Ascii.eqb c dquote then Some (EmptyString, r)
      else if Ascii.eqb c backslash then
        match r with
        | e :: r' =>
            match unescape e, string_body r' with
            | Some c', Some (s, rest) => Some (String c' s, rest)
            | _, _ => None
            end
        | [] => None
        end
      else
        match string_body r with
        | Some (s, rest) => Some (String c s, rest)
        | None => None
        end
  end.

Fixpoint digits (l : list ascii) (acc : Z) : Z * list ascii :=
  match l with
  | c :: r => if is_digit c then digits r (10 * acc + digit_val c) else (acc, l)
  | [] => (acc, [])
  end.

Definition number (l : list ascii) : option (value * list ascii) :=
  match l with
  | c :: r =>
      if is_digit c then let '(n, rest) := digits l 0 in Some (VNum n, rest)
      else if Ascii.eqb c "-" then
        match r with
        | d :: _ => if is_digit d then let '(n, rest) := digits r 0 in Some (VNum (- n), rest)
                    else None
        | [] => None
        end
      else None
  | [] => None
  end.

Fixpoint parse_value (fuel : nat) (l : list ascii) : option (value * list ascii) :=
  match fuel with
  | O => None
  | S fuel =>
      let l := skip_ws l in
      match starts_with (list_ascii_of_string "null") l with
      | Some r => Some (VNull, r)
      | None =>
      match starts_with (list_ascii_of_string "true") l with
      | Some r => Some (VBool true, r)
      | None =>
      match starts_with (list_ascii_of_string "false") l with
      | Some r => Some (VBool false, r)
      | None =>
      match l with
      | [] => None
      | c :: r =>
          if Ascii.eqb c dquote then
            match string_body r with
            | Some (s, rest) => Some (VStr s, rest)
            | None => None
            end
          else if Ascii.eqb c "[" then
            match starts_with ["]"%char] (skip_ws r) with
            | Some rest => Some (VArr [], rest)
            | None => parse_elements fuel r
            end
          else if Ascii.eqb c "{" then
            match starts_with ["}"%char] (skip_ws r) with
            | Some rest => Some (VObj ∅, rest)
            | None => parse_members fuel r ∅
            end
          else number l
      end end end end
  end
with parse_elements (fuel : nat) (l : list ascii) : option (value * list ascii) :=
  match fuel with
  | O => None
  | S fuel =>
      match parse_value fuel l with
      | None => None
      | Some (v, r) =>
          match skip_ws r with
          | c :: r' =>
              if Ascii.eqb c "]" then Some (VArr [v], r')
              else if Ascii.eqb c "," then
                match parse_elements fuel r' with
                | Some (VArr vs, rest) => Some (VArr (v :: vs), rest)
                | _ => None
                end
              else None
          | [] => None
          end
      end
  end
with parse_members (fuel : nat) (l : list ascii) (acc : gmap string value)
  : option (value * list ascii) :=
  match fuel with
  | O => None
  | S fuel =>
      match skip_ws l with
      | q :: r =>
          if Ascii.eqb q dquote then
            match string_body r with
            | None => None
            | Some (k, r1) =>
                match skip_ws r1 with
                | colon :: r2 =>
                    if Ascii.eqb colon ":" then
                      match parse_value fuel r2 with
                      | None => None
                      | Some (v, r3) =>
                          match skip_ws r3 with
                          | c :: r4 =>
                              if Ascii.eqb c "}" then Some (VObj (<[k := v]> acc), r4)
                              else if Ascii.eqb c "," then parse_members fuel r4 (<[k := v]> acc)
                              else None
                          | [] => None
                          end
                      end
                    else None
                | [] => None
                end
            end
          else None
      | [] => None
      end
  end.

(** [JSON.parse(text)] for a string [text]; [None] is a [SyntaxError]. *)
Definition parse (text : value) : option value :=
  match text with
  | VStr s =>
      let l := list_ascii_of_string s in
      match parse_value (S (List.length l)) l with
      | Some (v, rest) => match skip_ws rest with [] => Some v | _ => None end
      | None => None
      end
  | _ => None
  end.

(** The text of a JSON string literal, and of an object with two members. *)
Definition quoted (s : string) : string :=
  String dquote s +:+ String dquote EmptyString.

Definition object2 (k1 v1 k2 v2 : string) : string :=
  "{" +:+ quoted k1 +:+ ":" +:+ quoted v1 +:+ "," +:+
  quoted k2 +:+ ":" +:+ quoted v2 +:+ "}".

End Json.

(** ** Vocabulary of the specification *)

(** [req.query && req.query[k]] for a request object [r]: the value the
    program tests to see whether the query carries the field [k]. *)
Definition query_field (r : gmap string value) (k : string) : value :=
  let q := prop (VObj r) "query" in
  if truthy q then prop q k else q.

(** The specification's resolution of [done(err, user, info)]:
    err present, error; no user, fail(info); otherwise success(user, info). *)
Definition resolution (d : done_call) : event :=
  let '(err, user, info) := d in
  if truthy err then EvError err
  else if truthy user then EvSuccess user info
  else EvFail info.

(** The specification's argument list for the verify callback, by
    request-passthrough mode and declared parameter count. *)
Definition dispatch_args (passthrough : bool) (arity : Z)
    (req accessToken refreshToken profile : value) : list value :=
  if passthrough then
    if Z.eqb arity 6
    then [req; accessToken; refreshToken; VObj ∅; profile; verified_fn]
    else [req; accessToken; refreshToken; profile; verified_fn]
  else
    if Z.eqb arity 5
    then [accessToken; refreshToken; VObj ∅; profile; verified_fn]
    else [accessToken; refreshToken; profile; verified_fn].

(** The outcomes of one run of the verify callback, in order. *)
Definition run_events (vr : verify_run) : list event :=
  map resolution (sync_done vr) ++
  match raised vr with Some ex => [EvError ex] | None => [] end.

(** The event of an exception that escapes a callback of the event loop. *)
Definition uncaught_events {A} (c : completion A) : list event :=
  match c with
  | Normal _ => []
  | Throw ex => [EvUncaught ex]
  end.

(** The verify callback reports once: one call of [verified] and a normal
    return, or an exception and no call of [verified]. *)
Definition reports_once (vr : verify_run) : Prop :=
  (exists d, sync_done vr = [d] /\ raised vr = None /\ later_done vr = []) \/
  (exists d, sync_done vr = [] /\ raised vr = None /\ later_done vr = [d]) \/
  (exists ex, sync_done vr = [] /\ raised vr = Some ex /\ later_done vr = []).

(** [keeps J P m]: from a strategy that satisfies [J], the computation [m]
    emits only events that satisfy [P] and ends in a strategy that satisfies
    [J]. *)
Definition keeps {A} (J : Strategy -> Prop) (P : event -> Prop) (m : M A) : Prop :=
  forall w, J (self w) -> Forall P (trace_of (m w)) /\ J (final_self (m w)).

(** The strategies that invocations of [authenticate] reach from [s0]. *)
Inductive reachable (s0 : Strategy) : Strategy -> Prop :=
| reach_new : reachable s0 s0
| reach_authenticate (s : Strategy) (E : Env) (req options : value) :
    reachable s0 s ->
    reachable s0 (final_self (run (authenticate E req options) s)).

(** A call of the verify callback made by the passthrough-disabled dispatch
    in the invocation of [authenticate] on the strategy [s] and the request
    [r]: the arguments are the access token and the resolved refresh token
    of a token set [tokens] that [getToken] delivered with no error for the
    request's code, the profile that the profile endpoint delivered with no
    error to the client holding [tokens], and [verified], with the empty
    object before the profile for a verify callback of five parameters.
    The request is not passed. *)
Definition disabled_call (E : Env) (s : Strategy) (r : gmap string value)
    (e : event) : Prop :=
  match e with
  | EvVerify args =>
      exists f n e0 tokens e1 profile,
        _verify s = VFun f n /\
        In (e0, tokens) (getToken E (oauth2Client s) (query_field r "code")) /\
        truthy e0 = false /\
        In (e1, profile)
           (userinfo_get E (oauth2Client (with_credentials s tokens))) /\
        truthy e1 = false /\
        args = if Z.eqb n 5
               then [prop tokens "access_token";
                     js_or (prop tokens "refresh_token") VNull;
                     VObj ∅; profile; verified_fn]
               else [prop tokens "access_token";
                     js_or (prop tokens "refresh_token") VNull;
                     profile; verified_fn]
  | _ => True
  end.

(** Two strategies that differ at most in the credentials of their client. *)
Definition same_but_credentials (s0 s : Strategy) : Prop :=
  name s = name s0 /\ _verify s = _verify s0 /\
  _passReqToCallback s = _passReqToCallback s0 /\ _scope s = _scope s0 /\
  clientID (oauth2Client s) = clientID (oauth2Client s0) /\
  clientSecret (oauth2Client s) = clientSecret (oauth2Client s0) /\
  redirectURL (oauth2Client s) = redirectURL (oauth2Client s0).

(** The strategy that the constructor builds from accepted arguments. *)
Definition built (options verify : value) : Strategy :=
  {| name := VStr "googleapis";
     _verify := verify;
     oauth2Client := {| clientID := prop options "clientID";
                        clientSecret := prop options "clientSecret";
                        redirectURL := prop options "redirectURL";
                        credentials := VObj ∅ |};
     _passReqToCallback := VUndef;
     _scope := VUndef |}.

(** ** Concrete inputs *)
Module Sample.

Definition verify4 : value := VFun "verify" 4.
Definition verify5 : value := VFun "verify" 5.

Definition options : value :=
  VObj {[ "clientID" := VStr "id"; "clientSecret" := VStr "secret";
          "redirectURL" := VStr "https://app.example/callback" ]}.

Definition options_with_scope : value :=
  VObj {[ "clientID" := VStr "id"; "clientSecret" := VStr "secret";
          "redirectURL" := VStr "https://app.example/callback";
          "scope" := VStr "email" ]}.

Definition client : OAuth2Client :=
  {| clientID := VStr "id"; clientSecret := VStr "secret";
     redirectURL := VStr "https://app.example/callback"; credentials := VObj ∅ |}.

(** The strategy that [new GoogleAPIsStrategy(options, verify4)] builds. *)
Definition strategy : Strategy :=
  {| name := VStr "googleapis"; _verify := verify4; oauth2Client := client;
     _passReqToCallback := VUndef; _scope := VUndef |}.

Definition strategy5 : Strategy :=
  {| name := VStr "googleapis"; _verify := verify5; oauth2Client := client;
     _passReqToCallback := VUndef; _scope := VUndef |}.

Definition tokens : value := VObj {[ "access_token" := VStr "AT1" ]}.
Definition profile : value := VObj {[ "id" := VStr "42" ]}.
Definition user : value := VObj {[ "name" := VStr "alice" ]}.
Definition boom : value := new_Error [VStr "boom"].

(** A failed exchange as the OAuth2 client reports it. *)
Definition failure : value :=
  VObj {[ "statusCode" := VNum 400;
          "data" := VStr (Json.object2 "error" "invalid_grant"
                                       "error_description" "bad code") ]}.

(** A failure whose payload carries an empty [error] member. *)
Definition failure_empty_error : value :=
  VObj {[ "statusCode" := VNum 400;
          "data" := VStr (Json.object2 "error" ""
                                       "error_description" "bad code") ]}.

Definition failure_unparsable : value :=
  VObj {[ "statusCode" := VNum 500; "data" := VStr "<html>oops</html>" ]}.

Definition auth_url (c : OAuth2Client) (params : value) : value :=
  VObj {[ "href" := VStr "https://accounts.google.com/o/oauth2/auth";
          "client_id" := clientID c; "params" := params ]}.

(** Exchange and profile fetch succeed; verify calls [done(null, user)]. *)
Definition env : Env :=
  {| JSON_parse := Json.parse;
     generateAuthUrl := auth_url;
     getToken := fun _ _ => [(VNull, tokens)];
     userinfo_get := fun _ => [(VNull, profile)];
     call := fun _ _ => {| sync_done := [(VNull, user, VUndef)];
                           raised := None; later_done := [] |} |}.

(** The exchange fails. *)
Definition env_exchange_fails : Env :=
  {| JSON_parse := Json.parse;
     generateAuthUrl := auth_url;
     getToken := fun _ _ => [(failure, VUndef)];
     userinfo_get := fun _ => [(VNull, profile)];
     call := fun _ _ => {| sync_done := [(VNull, user, VUndef)];
                           raised := None; later_done := [] |} |}.

(** Verify calls [done(null, user)] and then throws. *)
Definition env_done_then_throw : Env :=
  {| JSON_parse := Json.parse;
     generateAuthUrl := auth_url;
     getToken := fun _ _ => [(VNull, tokens)];
     userinfo_get := fun _ => [(VNull, profile)];
     call := fun _ _ => {| sync_done := [(VNull, user, VUndef)];
                           raised := Some boom; later_done := [] |} |}.

(** Verify throws before it reports. *)
Definition env_verify_throws : Env :=
  {| JSON_parse := Json.parse;
     generateAuthUrl := auth_url;
     getToken := fun _ _ => [(VNull, tokens)];
     userinfo_get := fun _ => [(VNull, profile)];
     call := fun _ _ => {| sync_done := []; raised := Some boom; later_done := [] |} |}.

Definition req_initial : gmap string value := ∅.

Definition req_code : gmap string value :=
  {[ "query" := VObj {[ "code" := VStr "abc123" ]} ]}.

Definition req_denied : gmap string value :=
  {[ "query" := VObj {[ "error" := VStr "access_denied";
                        "error_description" := VStr "The user said no" ]} ]}.

Definition req_server_error : gmap string value :=
  {[ "query" := VObj {[ "error" := VStr "server_error";
                        "error_description" := VStr "Try later";
                        "error_uri" := VStr "https://example/err" ]} ]}.

(** [?error=]: the query carries an [error] field whose value is empty. *)
Definition req_empty_error : gmap string value :=
  {[ "query" := VObj {[ "error" := VStr "" ]} ]}.

(** The profile fetch fails. *)
Definition env_profile_fails : Env :=
  {| JSON_parse := Json.parse;
     generateAuthUrl := auth_url;
     getToken := fun _ _ => [(VNull, tokens)];
     userinfo_get := fun _ => [(boom, VUndef)];
     call := fun _ _ => {| sync_done := [(VNull, user, VUndef)];
                           raised := None; later_done := [] |} |}.

(** The exchange calls back with neither an error nor a token set. *)
Definition env_no_tokens : Env :=
  {| JSON_parse := Json.parse;
     generateAuthUrl := auth_url;
     getToken := fun _ _ => [(VNull, VUndef)];
     userinfo_get := fun _ => [(VNull, profile)];
     call := fun _ _ => {| sync_done := [(VNull, user, VUndef)];
                           raised := None; later_done := [] |} |}.

(** The exchange calls back twice, with a failure each time. *)
Definition env_two_failures : Env :=
  {| JSON_parse := Json.parse;
     generateAuthUrl := auth_url;
     getToken := fun _ _ => [(failure, VUndef); (failure_unparsable, VUndef)];
     userinfo_get := fun _ => [(VNull, profile)];
     call := fun _ _ => {| sync_done := [(VNull, user, VUndef)];
                           raised := None; later_done := [] |} |}.

(** Options that lack the client secret. *)
Definition options_no_secret : value :=
  VObj {[ "clientID" := VStr "id";
          "redirectURL" := VStr "https://app.example/callback" ]}.

(** A verify argument that is truthy and not a function. *)
Definition not_a_function : value := VStr "verify".

Definition req_error_and_code : gmap string value :=
  {[ "query" := VObj {[ "error" := VStr "server_error"; "code" := VStr "abc123" ]} ]}.

Definition call_options : value :=
  VObj {[ "scope" := VStr "a b"; "accessType" := VStr "offline";
          "access_type" := VStr "online"; "prompt" := VStr "consent" ]}.

End Sample.

(** * Properties *)

(** ** Property reads *)

Lemma truthy_not_nullish v : truthy v = true -> nullish v = false.
Proof. destruct v; simpl; intros; try discriminate; reflexivity. Qed.

Lemma get_prop_not_nullish v k : nullish v = false -> get_prop v k = Normal (prop v k).
Proof. unfold get_prop. intros ->. reflexivity. Qed.

Lemma get_prop_truthy v k : truthy v = true -> get_prop v k = Normal (prop v k).
Proof. intros H. apply get_prop_not_nullish, truthy_not_nullish, H. Qed.

Lemma get_prop_obj m k : get_prop (VObj m) k = Normal (prop (VObj m) k).
Proof. reflexivity. Qed.

Lemma and_prop_normal a k :
  and_prop a k = Normal (if truthy a then prop a k else a).
Proof.
  unfold and_prop. destruct (truthy a) eqn:T; [|reflexivity].
  apply get_prop_truthy, T.
Qed.

Lemma and_prop_query (r : gmap string value) k :
  and_prop (prop (VObj r) "query") k = Normal (query_field r k).
Proof. apply and_prop_normal. Qed.

Lemma js_or_obj_not_nullish o : nullish (js_or o (VObj ∅)) = false.
Proof.
  unfold js_or. destruct (truthy o) eqn:T; [|reflexivity].
  apply truthy_not_nullish, T.
Qed.

Lemma js_or_null_not_undef v : js_or v VNull <> VUndef.
Proof. unfold js_or. destruct v; simpl; try discriminate; case_match; discriminate. Qed.

Lemma query_field_truthy (r : gmap string value) k :
  truthy (query_field r k) = true ->
  truthy (prop (VObj r) "query") = true /\
  query_field r k = prop (prop (VObj r) "query") k.
Proof.
  unfold query_field. destruct (truthy (prop (VObj r) "query")) eqn:T.
  - intros _. split; reflexivity.
  - intros H. rewrite H in T. discriminate.
Qed.

(** ** Equations of the monad *)

Lemma prepend_nil {A} (r : result A) : prepend [] r = r.
Proof. destruct r as [[t w] c]. reflexivity. Qed.

Lemma prepend_triple {A} t t' w (c : completion A) :
  prepend t (t', w, c) = (t ++ t', w, c).
Proof. reflexivity. Qed.

Lemma prepend_prepend {A} t t' (r : result A) :
  prepend t (prepend t' r) = prepend (t ++ t') r.
Proof. destruct r as [[t0 w] c]. simpl. rewrite app_assoc. reflexivity. Qed.

Lemma bind_lift {A B} (c : completion A) (f : A -> M B) w :
  (lift c ≫= f) w = match c with Normal a => f a w | Throw ex => ([], w, Throw ex) end.
Proof. unfold mbind, M_bind, lift. destruct c; [apply prepend_nil | reflexivity]. Qed.

Lemma bind_ret {A B} (a : A) (f : A -> M B) w : (mret a ≫= f) w = f a w.
Proof. unfold mbind, M_bind, mret, M_ret. apply prepend_nil. Qed.

Lemma bind_get_self {B} (f : Strategy -> M B) w : (get_self ≫= f) w = f (self w) w.
Proof. unfold mbind, M_bind, get_self. apply prepend_nil. Qed.

Lemma bind_emit {B} e (f : unit -> M B) w : (emit e ≫= f) w = prepend [e] (f tt w).
Proof. reflexivity. Qed.

Lemma bind_put_self {B} s (f : unit -> M B) w :
  (put_self s ≫= f) w = f tt {| self := s; tasks := tasks w |}.
Proof. unfold mbind, M_bind, put_self. apply prepend_nil. Qed.

Lemma bind_schedule {B} l (f : unit -> M B) w :
  (schedule l ≫= f) w = f tt {| self := self w; tasks := tasks w ++ l |}.
Proof. unfold mbind, M_bind, schedule. apply prepend_nil. Qed.

Lemma bind_take_tasks {B} (f : list done_call -> M B) w :
  (take_tasks ≫= f) w = f (tasks w) {| self := self w; tasks := [] |}.
Proof. unfold mbind, M_bind, take_tasks. apply prepend_nil. Qed.

Lemma bind_normal {A B} (m : M A) (f : A -> M B) w t w' a :
  m w = (t, w', Normal a) -> (m ≫= f) w = prepend t (f a w').
Proof. intros H. unfold mbind, M_bind. rewrite H. reflexivity. Qed.

Lemma bind_throw {A B} (m : M A) (f : A -> M B) w t w' ex :
  m w = (t, w', Throw ex) -> (m ≫= f) w = (t, w', Throw ex).
Proof. intros H. unfold mbind, M_bind. rewrite H. reflexivity. Qed.

Lemma try_normal {A} (m : M A) h w t w' a :
  m w = (t, w', Normal a) -> try_catchM m h w = (t, w', Normal a).
Proof. intros H. unfold try_catchM. rewrite H. reflexivity. Qed.

Lemma try_throw {A} (m : M A) h w t w' ex :
  m w = (t, w', Throw ex) -> try_catchM m h w = prepend t (h ex w').
Proof. intros H. unfold try_catchM. rewrite H. reflexivity. Qed.

Lemma setCredentials_run tokens w :
  setCredentials tokens w =
    ([EvSetCredentials tokens],
     {| self := with_credentials (self w) tokens; tasks := tasks w |}, Normal tt).
Proof. reflexivity. Qed.

(** ** The source's [verified] is the specification's resolution *)

Lemma verified_run d w : verified d w = ([resolution d], w, Normal tt).
Proof.
  destruct d as [[err user] info]. unfold verified, resolution.
  destruct (truthy err); [reflexivity|].
  destruct (truthy user); reflexivity.
Qed.

Lemma for_each_verified l w :
  for_each l verified w = (map resolution l, w, Normal tt).
Proof.
  induction l as [|d l IH]; [reflexivity|].
  simpl for_each. erewrite bind_normal by apply verified_run.
  rewrite IH. reflexivity.
Qed.

(** ** The event loop *)

Lemma async_nil {A} (k : A -> M unit) w : async [] k w = ([], w, Normal tt).
Proof. reflexivity. Qed.

Lemma async_cons {A} (k : A -> M unit) r rest w t w' c :
  k r w = (t, w', c) ->
  async (r :: rest) k w =
    prepend (t ++ uncaught_events c ++ map resolution (tasks w'))
            (async rest k {| self := self w'; tasks := [] |}).
Proof.
  intros H. simpl async.
  destruct c as [[]|ex].
  - erewrite bind_normal by (apply try_normal, H).
    erewrite bind_normal
      by (rewrite bind_take_tasks; apply for_each_verified).
    rewrite prepend_prepend. reflexivity.
  - erewrite bind_normal by (erewrite try_throw by apply H; reflexivity).
    erewrite bind_normal
      by (rewrite bind_take_tasks; apply for_each_verified).
    rewrite prepend_prepend. simpl uncaught_events.
    rewrite <- app_assoc. reflexivity.
Qed.

Lemma async_one {A} (k : A -> M unit) r w t w' c :
  k r w = (t, w', c) ->
  async [r] k w =
    (t ++ uncaught_events c ++ map resolution (tasks w'),
     {| self := self w'; tasks := [] |}, Normal tt).
Proof.
  intros H. rewrite (async_cons _ _ _ _ _ _ _ H), async_nil.
  rewrite prepend_triple, app_nil_r. reflexivity.
Qed.

Lemma async_normal {A} (k : A -> M unit) l w :
  exists t w', async l k w = (t, w', Normal tt).
Proof.
  revert w. induction l as [|r rest IH]; intros w.
  - eexists _, _. reflexivity.
  - destruct (k r w) as [[t w'] c] eqn:Hk.
    rewrite (async_cons _ _ _ _ _ _ _ Hk).
    destruct (IH {| self := self w'; tasks := [] |}) as (t2 & w2 & ->).
    eexists _, _. reflexivity.
Qed.

Section Run.

Context (E : Env).


(** ** The verify callback *)

Lemma apply_verify_fun f n args w :
  apply_verify E (VFun f n) args w =
    (EvVerify args :: map resolution (sync_done (call E f args)),
     {| self := self w; tasks := tasks w ++ later_done (call E f args) |},
     match raised (call E f args) with
     | Some ex => Throw ex
     | None => Normal tt
     end).
Proof.
  unfold apply_verify. rewrite bind_emit, bind_schedule.
  erewrite bind_normal by apply for_each_verified.
  destruct (raised (call E f args)); simpl; rewrite ?app_nil_r; reflexivity.
Qed.

Lemma apply_verify_not_fun fn args w :
  is_function fn = false ->
  apply_verify E fn args w =
    ([], w, Throw (new_TypeError "self._verify is not a function")).
Proof. destruct fn; simpl; intros; try discriminate; reflexivity. Qed.

Lemma on_profile_error req a rt err profile w :
  truthy err = true ->
  on_profile E req a rt (err, profile) w = ([EvError err], w, Normal tt).
Proof. intros H. unfold on_profile. rewrite H. reflexivity. Qed.

Lemma on_profile_fun req a rt err profile f n w :
  truthy err = false ->
  _verify (self w) = VFun f n ->
  let args := dispatch_args (truthy (_passReqToCallback (self w))) n req a rt profile in
  on_profile E req a rt (err, profile) w =
    (EvVerify args :: run_events (call E f args),
     {| self := self w; tasks := tasks w ++ later_done (call E f args) |},
     Normal tt).
Proof.
  intros He Hf args. unfold on_profile. rewrite He.
  match goal with |- try_catchM ?b _ _ = _ => set (body := b) end.
  assert (Hb : body w = apply_verify E (VFun f n) args w).
  { subst body args. rewrite bind_get_self, Hf. unfold dispatch_args.
    destruct (truthy (_passReqToCallback (self w)));
      rewrite bind_lift;
      change (get_prop (VFun f n) "length") with (Normal (VNum n));
      cbv beta iota; unfold strict_eq_num;
      destruct (Z.eqb n _); reflexivity. }
  unfold try_catchM, run_events. rewrite Hb, apply_verify_fun.
  destruct (raised (call E f args)); simpl; rewrite ?app_nil_r; reflexivity.
Qed.

Lemma on_profile_not_fun req a rt err profile w :
  truthy err = false ->
  is_function (_verify (self w)) = false ->
  exists ex, on_profile E req a rt (err, profile) w = ([EvError ex], w, Normal tt).
Proof.
  intros He Hf. unfold on_profile. rewrite He.
  match goal with |- context [try_catchM ?b _ _] => set (body := b) end.
  assert (Hb : exists ex, body w = ([], w, Throw ex)).
  { subst body. rewrite bind_get_self.
    destruct (truthy (_passReqToCallback (self w)));
      rewrite bind_lift; unfold get_prop;
      (destruct (nullish (_verify (self w))); [eexists; reflexivity|]);
      destruct (strict_eq_num _ _);
      rewrite (apply_verify_not_fun _ _ _ Hf); eexists; reflexivity. }
  destruct Hb as [ex Hb]. exists ex.
  unfold try_catchM. rewrite Hb. reflexivity.
Qed.

(** ** The token callback *)

Lemma createOAuthError_steps message err :
  nullish err = false ->
  _createOAuthError E message err =
    if truthy (prop err "statusCode") && truthy (prop err "data") then
      match JSON_parse E (prop err "data") with
      | Some json =>
          if truthy (prop json "error")
          then Normal (new_Error [prop json "error_description"; prop json "error";
                                  prop json "error_uri"])
          else Normal (new_Error [message; err])
      | None => Normal (new_Error [message; err])
      end
    else Normal (new_Error [message; err]).
Proof.
  intros H. unfold _createOAuthError. cbv zeta.
  rewrite !(get_prop_not_nullish _ _ H).
  unfold mbind at 1, completion_bind.
  destruct (truthy (prop err "statusCode")) eqn:Hs; simpl andb.
  - unfold mbind at 1, completion_bind.
    destruct (truthy (prop err "data")) eqn:Hd.
    + unfold parseErrorResponse, try_catch, mbind, completion_bind.
      destruct (JSON_parse E (prop err "data")) as [json|]; [|reflexivity].
      unfold get_prop. destruct (nullish json) eqn:N.
      * destruct json; try discriminate; reflexivity.
      * destruct (truthy (prop json "error")); reflexivity.
    + reflexivity.
  - unfold mbind, completion_bind. rewrite Hs. reflexivity.
Qed.

Lemma createOAuthError_total message err :
  nullish err = false -> exists e, _createOAuthError E message err = Normal e.
Proof.
  intros H. rewrite (createOAuthError_steps _ _ H).
  destruct (truthy (prop err "statusCode") && truthy (prop err "data"));
    [|eexists; reflexivity].
  destruct (JSON_parse E (prop err "data")) as [json|]; [|eexists; reflexivity].
  destruct (truthy (prop json "error")); eexists; reflexivity.
Qed.

Lemma on_tokens_error req err tokens w :
  truthy err = true ->
  exists e, _createOAuthError E (VStr "Failed to obtain access token") err = Normal e /\
            on_tokens E req (err, tokens) w = ([EvError e], w, Normal tt).
Proof.
  intros H.
  destruct (createOAuthError_total (VStr "Failed to obtain access token") err)
    as [e He]; [apply truthy_not_nullish, H|].
  exists e. split; [exact He|].
  unfold on_tokens. rewrite H, bind_lift, He. reflexivity.
Qed.

Lemma on_tokens_ok req err tokens w :
  truthy err = false -> nullish tokens = false ->
  let s' := with_credentials (self w) tokens in
  on_tokens E req (err, tokens) w =
    prepend [EvSetCredentials tokens; EvUserinfoGet (oauth2Client s')]
      (async (userinfo_get E (oauth2Client s'))
             (on_profile E req (prop tokens "access_token")
                         (js_or (prop tokens "refresh_token") VNull))
             {| self := s'; tasks := tasks w |}).
Proof.
  intros He Hn s'. unfold on_tokens. rewrite He.
  rewrite bind_lift, (get_prop_not_nullish _ _ Hn).
  rewrite bind_lift, (get_prop_not_nullish _ _ Hn).
  erewrite bind_normal by apply setCredentials_run.
  rewrite bind_get_self, bind_emit, prepend_prepend. reflexivity.
Qed.

Lemma on_tokens_no_tokens req err tokens w :
  truthy err = false -> nullish tokens = true ->
  exists ex, on_tokens E req (err, tokens) w = ([], w, Throw ex).
Proof.
  intros He Hn. unfold on_tokens. rewrite He, bind_lift.
  unfold get_prop. rewrite Hn. eexists. reflexivity.
Qed.

(** ** The three branches of [authenticate] *)

Lemma authenticate_error_branch s (r : gmap string value) options :
  truthy (query_field r "error") = true ->
  run (authenticate E (VObj r) options) s =
    (if strict_eq_str (query_field r "error") "access_denied"
     then [EvFail (VObj {[ "message" := query_field r "error_description" ]})]
     else [EvError (new_Error [query_field r "error_description";
                               query_field r "error";
                               query_field r "error_uri"])],
     {| self := s; tasks := [] |}, Normal tt).
Proof.
  intros H. destruct (query_field_truthy _ _ H) as [Hq Hf].
  assert (Hk : forall k, query_field r k = prop (prop (VObj r) "query") k).
  { intros k. unfold query_field. rewrite Hq. reflexivity. }
  unfold run, authenticate. cbv zeta.
  rewrite bind_lift, get_prop_obj. cbv beta iota.
  rewrite bind_lift, and_prop_query. cbv beta iota. rewrite H.
  destruct (strict_eq_str (query_field r "error") "access_denied").
  - rewrite bind_lift, (get_prop_truthy _ _ Hq), <- Hk. reflexivity.
  - rewrite bind_lift, (get_prop_truthy _ _ Hq), <- Hk.
    rewrite bind_lift, (get_prop_truthy _ _ Hq), <- Hk.
    rewrite bind_lift, (get_prop_truthy _ _ Hq), <- Hk. reflexivity.
Qed.

Lemma authenticate_code_branch s (r : gmap string value) options :
  truthy (query_field r "error") = false ->
  truthy (query_field r "code") = true ->
  run (authenticate E (VObj r) options) s =
    prepend [EvGetToken (query_field r "code")]
      (async (getToken E (oauth2Client s) (query_field r "code"))
             (on_tokens E (VObj r)) {| self := s; tasks := [] |}).
Proof.
  intros He Hc. unfold run, authenticate. cbv zeta.
  rewrite bind_lift, get_prop_obj. cbv beta iota.
  rewrite bind_lift, and_prop_query. cbv beta iota. rewrite He.
  rewrite bind_lift, and_prop_query. cbv beta iota. rewrite Hc.
  rewrite bind_get_self, bind_emit. reflexivity.
Qed.

Lemma authorizationParams_steps s o :
  nullish o = false ->
  authorizationParams s o =
    let scope := js_or (prop o "scope") (_scope s) in
    let access := js_or (prop o "accessType") (prop o "access_type") in
    let p1 : gmap string value := if truthy scope then {[ "scope" := scope ]} else ∅ in
    Normal (VObj (if truthy access then <[ "access_type" := access ]> p1 else p1)).
Proof.
  intros H. unfold authorizationParams, get_prop, js_or. rewrite H. simpl.
  destruct (truthy (prop o "accessType")); reflexivity.
Qed.

Lemma authenticate_redirect_branch s (r : gmap string value) options :
  truthy (query_field r "error") = false ->
  truthy (query_field r "code") = false ->
  exists params,
    authorizationParams s (js_or options (VObj ∅)) = Normal params /\
    run (authenticate E (VObj r) options) s =
      ([EvRedirect (generateAuthUrl E (oauth2Client s) params)],
       {| self := s; tasks := [] |}, Normal tt).
Proof.
  intros He Hc.
  pose proof (authorizationParams_steps s _ (js_or_obj_not_nullish options)) as Hp.
  cbv zeta in Hp. eexists. split; [exact Hp|].
  unfold run, authenticate. cbv zeta.
  rewrite bind_lift, get_prop_obj. cbv beta iota.
  rewrite bind_lift, and_prop_query. cbv beta iota. rewrite He.
  rewrite bind_lift, and_prop_query. cbv beta iota. rewrite Hc.
  rewrite bind_get_self. cbn [self]. rewrite bind_lift, Hp. reflexivity.
Qed.

End Run.

Lemma async_tasks_nil {A} (k : A -> M unit) l w t w' c :
  tasks w = [] -> async l k w = (t, w', c) -> tasks w' = [].
Proof.
  revert w t w' c. induction l as [|r rest IH]; intros w t w' c Hw H.
  - rewrite async_nil in H. injection H as <- <- <-. exact Hw.
  - destruct (k r w) as [[t1 w1] c1] eqn:Hk.
    rewrite (async_cons _ _ _ _ _ _ _ Hk) in H.
    destruct (async rest k {| self := self w1; tasks := [] |}) as [[t2 w2] c2] eqn:Hr.
    rewrite prepend_triple in H. injection H as <- <- <-.
    eapply IH; [|exact Hr]. reflexivity.
Qed.

Section Paths.

Context (E : Env) (s : Strategy) (r : gmap string value) (options : value).

Lemma authenticate_exchange_error err tokens :
  truthy (query_field r "error") = false ->
  truthy (query_field r "code") = true ->
  getToken E (oauth2Client s) (query_field r "code") = [(err, tokens)] ->
  truthy err = true ->
  exists e,
    _createOAuthError E (VStr "Failed to obtain access token") err = Normal e /\
    run (authenticate E (VObj r) options) s =
      ([EvGetToken (query_field r "code"); EvError e], {| self := s; tasks := [] |}, Normal tt).
Proof.
  intros He Hc Hg Herr.
  destruct (on_tokens_error E (VObj r) err tokens {| self := s; tasks := [] |} Herr)
    as (e & Hn & Ht).
  exists e. split; [exact Hn|].
  rewrite (authenticate_code_branch E s r options He Hc). rewrite Hg.
  rewrite (async_one _ _ _ _ _ _ Ht). reflexivity.
Qed.

Lemma authenticate_exchange_ok err tokens :
  truthy (query_field r "error") = false ->
  truthy (query_field r "code") = true ->
  getToken E (oauth2Client s) (query_field r "code") = [(err, tokens)] ->
  truthy err = false ->
  nullish tokens = false ->
  let s' := with_credentials s tokens in
  exists t w',
    async (userinfo_get E (oauth2Client s'))
          (on_profile E (VObj r) (prop tokens "access_token")
                      (js_or (prop tokens "refresh_token") VNull))
          {| self := s'; tasks := [] |} = (t, w', Normal tt) /\
    tasks w' = [] /\
    run (authenticate E (VObj r) options) s =
      (EvGetToken (query_field r "code") :: EvSetCredentials tokens :: EvUserinfoGet (oauth2Client s') :: t,
       w', Normal tt).
Proof.
  intros He Hc Hg Herr Hn s'.
  pose proof (on_tokens_ok E (VObj r) err tokens {| self := s; tasks := [] |} Herr Hn) as Ht.
  cbv zeta in Ht. cbn [self tasks] in Ht. fold s' in Ht.
  destruct (async_normal
              (on_profile E (VObj r) (prop tokens "access_token")
                          (js_or (prop tokens "refresh_token") VNull))
              (userinfo_get E (oauth2Client s')) {| self := s'; tasks := [] |})
    as (t & w' & Ha).
  assert (Hw : tasks w' = []) by (eapply async_tasks_nil; [|exact Ha]; reflexivity).
  exists t, w'. split; [exact Ha|]. split; [exact Hw|].
  rewrite Ha, prepend_triple in Ht.
  rewrite (authenticate_code_branch E s r options He Hc). rewrite Hg.
  rewrite (async_one _ _ _ _ _ _ Ht), Hw. simpl.
  rewrite app_nil_r. destruct w' as [sw tw]. simpl in Hw. subst tw. reflexivity.
Qed.

Lemma authenticate_verify_run e0 tokens e1 profile f n :
  truthy (query_field r "error") = false ->
  truthy (query_field r "code") = true ->
  getToken E (oauth2Client s) (query_field r "code") = [(e0, tokens)] ->
  truthy e0 = false ->
  nullish tokens = false ->
  let s' := with_credentials s tokens in
  userinfo_get E (oauth2Client s') = [(e1, profile)] ->
  truthy e1 = false ->
  _verify s = VFun f n ->
  let args := dispatch_args (truthy (_passReqToCallback s)) n (VObj r)
                (prop tokens "access_token")
                (js_or (prop tokens "refresh_token") VNull) profile in
  run (authenticate E (VObj r) options) s =
    (EvGetToken (query_field r "code") :: EvSetCredentials tokens :: EvUserinfoGet (oauth2Client s') ::
     EvVerify args :: run_events (call E f args) ++
     map resolution (later_done (call E f args)),
     {| self := s'; tasks := [] |}, Normal tt).
Proof.
  intros He Hc Hg He0 Hn s' Hu He1 Hf args.
  destruct (authenticate_exchange_ok e0 tokens He Hc Hg He0 Hn) as (t & w' & Ha & _ & Hr).
  fold s' in Ha, Hr. rewrite Hr. rewrite Hu in Ha.
  pose proof (on_profile_fun E (VObj r) (prop tokens "access_token")
                (js_or (prop tokens "refresh_token") VNull) e1 profile f n
                {| self := s'; tasks := [] |} He1 Hf) as Hp.
  cbv zeta in Hp. cbn [self tasks] in Hp.
  change (_passReqToCallback s') with (_passReqToCallback s) in Hp. fold args in Hp.
  rewrite (async_one _ _ _ _ _ _ Hp) in Ha. cbn [self tasks uncaught_events] in Ha.
  injection Ha as <- <-. simpl. reflexivity.
Qed.

End Paths.

(** ** Filtering traces *)

Lemma resolution_is_outcome d : is_outcome (resolution d) = true.
Proof.
  destruct d as [[err user] info]. unfold resolution.
  destruct (truthy err); [reflexivity|]. destruct (truthy user); reflexivity.
Qed.

Lemma resolution_cases d :
  (exists e, resolution d = EvError e) \/
  (exists u i, resolution d = EvSuccess u i) \/
  (exists i, resolution d = EvFail i).
Proof.
  destruct d as [[err user] info]. unfold resolution.
  destruct (truthy err); [left; eexists; reflexivity|].
  destruct (truthy user); right; [left | right]; repeat eexists.
Qed.

Lemma filter_resolutions (p : event -> bool) l :
  (forall d, p (resolution d) = is_outcome (resolution d)) ->
  List.filter p (map resolution l) = map resolution l.
Proof.
  intros Hp. induction l as [|d l IH]; [reflexivity|].
  simpl. rewrite Hp, resolution_is_outcome, IH. reflexivity.
Qed.

Lemma filter_out_resolutions (p : event -> bool) l :
  (forall e, is_outcome e = true -> p e = false) ->
  List.filter p (map resolution l) = [].
Proof.
  intros Hp. induction l as [|d l IH]; [reflexivity|].
  simpl. rewrite (Hp _ (resolution_is_outcome d)), IH. reflexivity.
Qed.

Lemma outcomes_run_events vr : outcomes (run_events vr) = run_events vr.
Proof.
  unfold outcomes, run_events. rewrite List.filter_app.
  rewrite filter_resolutions by reflexivity.
  destruct (raised vr); reflexivity.
Qed.

Lemma filter_out_run_events (p : event -> bool) vr :
  (forall e, is_outcome e = true -> p e = false) ->
  List.filter p (run_events vr) = [].
Proof.
  intros Hp. unfold run_events. rewrite List.filter_app.
  rewrite (filter_out_resolutions _ _ Hp).
  destruct (raised vr); [|reflexivity].
  simpl. rewrite Hp; reflexivity.
Qed.

Lemma outcome_not_verify e : is_outcome e = true -> is_verify e = false.
Proof. destruct e; simpl; intros; try discriminate; reflexivity. Qed.

Lemma outcome_not_uncaught e : is_outcome e = true -> is_uncaught e = false.
Proof. destruct e; simpl; intros; try discriminate; reflexivity. Qed.

Lemma outcome_not_redirect e : is_outcome e = true -> is_redirect e = false.
Proof. destruct e; simpl; intros; try discriminate; reflexivity. Qed.

Lemma resolution_is_terminal d : is_terminal (resolution d) = true.
Proof. unfold is_terminal. rewrite resolution_is_outcome. reflexivity. Qed.

Lemma is_function_true v : is_function v = true -> exists f n, v = VFun f n.
Proof. destruct v; simpl; intros; try discriminate. eexists _, _. reflexivity. Qed.

Lemma count_app p t1 t2 : count p (t1 ++ t2) = (count p t1 + count p t2)%nat.
Proof. unfold count. rewrite List.filter_app, List.length_app. reflexivity. Qed.

Lemma count_cons p e t :
  count p (e :: t) = ((if p e then 1 else 0) + count p t)%nat.
Proof. unfold count. simpl. destruct (p e); reflexivity. Qed.

Lemma count_nil p : count p [] = 0%nat.
Proof. reflexivity. Qed.

(** ** One reply of the profile endpoint, with a verify callback that reports once *)

Lemma profile_reply_once E req a rt e1 p w :
  (forall f args, reports_once (call E f args)) ->
  tasks w = [] ->
  exists t w',
    async [(e1, p)] (on_profile E req a rt) w = (t, w', Normal tt) /\
    count is_terminal t = 1%nat /\ count is_uncaught t = 0%nat.
Proof.
  intros Hv Hw.
  destruct (truthy e1) eqn:He1.
  - eexists _, _. split.
    + apply async_one. apply on_profile_error, He1.
    + rewrite Hw. split; reflexivity.
  - destruct (is_function (_verify (self w))) eqn:Hfun.
    + destruct (is_function_true _ Hfun) as (f & n & Hf).
      pose proof (on_profile_fun E req a rt e1 p f n w He1 Hf) as Hp.
      cbv zeta in Hp. rewrite Hw in Hp. cbn [app] in Hp.
      match type of Hp with context [call E f ?l] => set (args := l) in * end.
      eexists _, _. split; [apply (async_one _ _ _ _ _ _ Hp)|].
      cbn [tasks uncaught_events app]. unfold run_events.
      destruct (Hv f args) as [(d & -> & -> & ->) | [(d & -> & -> & ->) | (ex & -> & -> & ->)]];
        cbn [map app]; rewrite !count_cons, ?count_nil; cbn [is_terminal is_outcome is_redirect is_uncaught orb];
        rewrite ?resolution_is_terminal, ?(outcome_not_uncaught _ (resolution_is_outcome d));
        split; reflexivity.
    + destruct (on_profile_not_fun E req a rt e1 p w He1 Hfun) as [ex Hp].
      eexists _, _. split; [apply (async_one _ _ _ _ _ _ Hp)|].
      rewrite Hw. split; reflexivity.
Qed.

(** ** Invariants of computations *)

Section Keeps.

Context (J : Strategy -> Prop) (P : event -> Prop).

Lemma keeps_ret {A} (a : A) : keeps J P (mret a).
Proof. intros w Hw. split; [constructor | exact Hw]. Qed.

Lemma keeps_lift {A} (c : completion A) : keeps J P (lift c).
Proof. intros w Hw. split; [constructor | exact Hw]. Qed.

Lemma keeps_emit e : P e -> keeps J P (emit e).
Proof. intros He w Hw. split; [repeat constructor; exact He | exact Hw]. Qed.

Lemma keeps_schedule l : keeps J P (schedule l).
Proof. intros w Hw. split; [constructor | exact Hw]. Qed.

Lemma keeps_put_self s : J s -> keeps J P (put_self s).
Proof. intros Hs w Hw. split; [constructor | exact Hs]. Qed.

Lemma keeps_bind {A B} (m : M A) (f : A -> M B) :
  keeps J P m -> (forall a, keeps J P (f a)) -> keeps J P (m ≫= f).
Proof.
  intros Hm Hf w Hw. specialize (Hm w Hw).
  unfold mbind, M_bind. destruct (m w) as [[t w'] [a|ex]].
  - destruct Hm as [Ht Hw']. specialize (Hf a w' Hw').
    destruct (f a w') as [[t' w''] c]. destruct Hf as [Ht' Hw''].
    split; [apply Forall_app; split; assumption | exact Hw''].
  - exact Hm.
Qed.

Lemma keeps_bind_lift {A B} (c : completion A) (f : A -> M B) :
  (forall a, c = Normal a -> keeps J P (f a)) -> keeps J P (lift c ≫= f).
Proof.
  intros Hf w Hw. rewrite bind_lift. destruct c as [a|ex].
  - apply (Hf a eq_refl w Hw).
  - split; [constructor | exact Hw].
Qed.

Lemma keeps_get_self {B} (f : Strategy -> M B) :
  (forall s, J s -> keeps J P (f s)) -> keeps J P (get_self ≫= f).
Proof. intros Hf w Hw. rewrite bind_get_self. apply (Hf (self w) Hw w Hw). Qed.

Lemma keeps_take_tasks {B} (f : list done_call -> M B) :
  (forall l, keeps J P (f l)) -> keeps J P (take_tasks ≫= f).
Proof. intros Hf w Hw. rewrite bind_take_tasks. apply (Hf (tasks w)). exact Hw. Qed.

Lemma keeps_try {A} (m : M A) (h : value -> M A) :
  keeps J P m -> (forall ex, keeps J P (h ex)) -> keeps J P (try_catchM m h).
Proof.
  intros Hm Hh w Hw. specialize (Hm w Hw).
  unfold try_catchM. destruct (m w) as [[t w'] [a|ex]].
  - exact Hm.
  - destruct Hm as [Ht Hw']. specialize (Hh ex w' Hw').
    destruct (h ex w') as [[t' w''] c]. destruct Hh as [Ht' Hw''].
    split; [apply Forall_app; split; assumption | exact Hw''].
Qed.

Lemma keeps_for_each {A} (l : list A) (k : A -> M unit) :
  (forall a, keeps J P (k a)) -> keeps J P (for_each l k).
Proof.
  intros Hk. induction l as [|a l IH]; [apply keeps_ret|].
  simpl. apply keeps_bind; [apply Hk | intros _; exact IH].
Qed.

Hypothesis outcomes_allowed : forall e, is_outcome e = true -> P e.

Lemma keeps_verified d : keeps J P (verified d).
Proof.
  intros w Hw. rewrite verified_run.
  split; [repeat constructor; apply outcomes_allowed, resolution_is_outcome | exact Hw].
Qed.

Hypothesis uncaught_allowed : forall ex, P (EvUncaught ex).

Lemma keeps_async {A} (l : list A) (k : A -> M unit) :
  (forall a, keeps J P (k a)) -> keeps J P (async l k).
Proof.
  intros Hk. induction l as [|a l IH]; [apply keeps_ret|].
  simpl. apply keeps_bind.
  - apply keeps_try; [apply Hk | intros ex; apply keeps_emit, uncaught_allowed].
  - intros _. apply keeps_bind; [|intros _; exact IH].
    apply keeps_take_tasks. intros ts. apply keeps_for_each, keeps_verified.
Qed.

End Keeps.

(** ** The request-passthrough flag *)

Ltac keeps_step :=
  match goal with
  | |- keeps _ _ (if ?b then _ else _) => destruct b
  | |- keeps _ _ (lift _ ≫= _) => apply keeps_bind; [apply keeps_lift | intros ?]
  | |- keeps _ _ (emit _ ≫= _) => apply keeps_bind; [apply keeps_emit; exact I | intros _]
  | |- keeps _ _ (schedule _ ≫= _) => apply keeps_bind; [apply keeps_schedule | intros _]
  | |- keeps _ _ (emit _) => apply keeps_emit; exact I
  | |- keeps _ _ (throw _) => apply keeps_lift
  | |- keeps _ _ (mret _) => apply keeps_ret
  end.

Lemma constructor_fields options verify s :
  GoogleAPIsStrategy options verify = Normal s ->
  name s = VStr "googleapis" /\
  _verify s = (if is_function options then options else verify) /\
  truthy (_verify s) = true /\
  _passReqToCallback s = VUndef /\
  _scope s = VUndef /\
  credentials (oauth2Client s) = VObj ∅.
Proof.
  unfold GoogleAPIsStrategy. cbv zeta.
  set (v := if is_function options then options else verify).
  set (o := js_or _ _).
  destruct (truthy v) eqn:Hv; simpl negb; cbv iota; [|discriminate].
  unfold mbind, completion_bind.
  destruct (get_prop o "clientID") as [id|]; [|discriminate].
  destruct (truthy id); simpl negb; cbv iota; [|discriminate].
  destruct (get_prop o "clientSecret") as [secret|]; [|discriminate].
  destruct (truthy secret); simpl negb; cbv iota; [|discriminate].
  destruct (get_prop o "redirectURL") as [url|]; [|discriminate].
  destruct (truthy url); simpl negb; cbv iota; [|discriminate].
  intros [= <-]. simpl. repeat split; assumption.
Qed.

Lemma strict_eq_str_true v lit : strict_eq_str v lit = true <-> v = VStr lit.
Proof.
  destruct v; simpl; try (split; [discriminate | intros; discriminate]).
  rewrite String.eqb_eq. split; [intros -> | intros [= ->]]; reflexivity.
Qed.

Lemma strict_eq_str_false v lit : v <> VStr lit -> strict_eq_str v lit = false.
Proof.
  intros H. destruct (strict_eq_str v lit) eqn:Heq; [|reflexivity].
  apply strict_eq_str_true in Heq. contradiction.
Qed.

Lemma no_query_no_field (r : gmap string value) k :
  r !! "query" = None -> query_field r k = VUndef.
Proof. intros H. unfold query_field. simpl. rewrite H. reflexivity. Qed.

(** * The claims *)

(** C3.  A request whose query carries neither a [code] nor an [error] field
    (a request with no query object is one: both tests then read
    [undefined]) makes [authenticate] issue exactly one redirect, to the URL
    that [generateAuthUrl] produces from [authorizationParams(options)],
    where an absent [options] counts as the empty object; it calls none of
    [success], [fail] and [error], and does not throw. *)
Theorem C3_redirect_without_code_or_error
    (E : Env) (s : Strategy) (r : gmap string value) (options : value) :
  truthy (query_field r "error") = false ->
  truthy (query_field r "code") = false ->
  exists params,
    authorizationParams s (js_or options (VObj ∅)) = Normal params /\
    trace_of (run (authenticate E (VObj r) options) s) =
      [EvRedirect (generateAuthUrl E (oauth2Client s) params)] /\
    count is_redirect (trace_of (run (authenticate E (VObj r) options) s)) = 1%nat /\
    count is_outcome (trace_of (run (authenticate E (VObj r) options) s)) = 0%nat /\
    completion_of (run (authenticate E (VObj r) options) s) = Normal tt.
Proof.
  intros He Hc.
  destruct (authenticate_redirect_branch E s r options He Hc) as (params & Hp & Hr).
  exists params. rewrite Hr. repeat split; assumption.
Qed.

Lemma C3_redirect_without_code_or_error_witness :
  Sample.req_initial !! "query" = None /\
  truthy (query_field Sample.req_initial "error") = false /\
  truthy (query_field Sample.req_initial "code") = false /\
  exists params,
    authorizationParams Sample.strategy (js_or VUndef (VObj ∅)) = Normal params /\
    trace_of (run (authenticate Sample.env (VObj Sample.req_initial) VUndef) Sample.strategy) =
      [EvRedirect (generateAuthUrl Sample.env (oauth2Client Sample.strategy) params)] /\
    count is_redirect
      (trace_of (run (authenticate Sample.env (VObj Sample.req_initial) VUndef)
                     Sample.strategy)) = 1%nat /\
    count is_outcome
      (trace_of (run (authenticate Sample.env (VObj Sample.req_initial) VUndef)
                     Sample.strategy)) = 0%nat /\
    completion_of (run (authenticate Sample.env (VObj Sample.req_initial) VUndef)
                       Sample.strategy) = Normal tt.
Proof.
  split; [reflexivity|]. split; [reflexivity|]. split; [reflexivity|].
  apply (C3_redirect_without_code_or_error
           Sample.env Sample.strategy Sample.req_initial VUndef); reflexivity.
Defined.

(** C2, as amended.  When the value of the query's [error] field is
    non-empty (truthy): if it is ['access_denied'], [authenticate] calls
    [fail] exactly once, with the challenge object
    [{message: error_description}], and neither [success] nor [error];
    for any other value it calls [error] exactly once, with
    [new Error(error_description, error, error_uri)].  Nothing else happens:
    no exchange, no redirect, no exception. *)
Theorem C2_provider_error
    (E : Env) (s : Strategy) (r : gmap string value) (options : value) :
  truthy (query_field r "error") = true ->
  let t := trace_of (run (authenticate E (VObj r) options) s) in
  (query_field r "error" = VStr "access_denied" ->
     t = [EvFail (VObj {[ "message" := query_field r "error_description" ]})]) /\
  (query_field r "error" <> VStr "access_denied" ->
     t = [EvError (new_Error [query_field r "error_description";
                              query_field r "error";
                              query_field r "error_uri"])]) /\
  count is_outcome t = 1%nat /\
  completion_of (run (authenticate E (VObj r) options) s) = Normal tt.
Proof.
  intros H t. subst t. rewrite (authenticate_error_branch E s r options H).
  unfold trace_of, completion_of. simpl.
  repeat split.
  - intros Heq. apply strict_eq_str_true in Heq. rewrite Heq. reflexivity.
  - intros Hne. rewrite (strict_eq_str_false _ _ Hne). reflexivity.
  - destruct (strict_eq_str _ _); reflexivity.
Qed.

Lemma C2_provider_error_witness :
  truthy (query_field Sample.req_denied "error") = true /\
  let t := trace_of (run (authenticate Sample.env (VObj Sample.req_denied) VUndef)
                         Sample.strategy) in
  (query_field Sample.req_denied "error" = VStr "access_denied" ->
     t = [EvFail (VObj {[ "message" := query_field Sample.req_denied "error_description" ]})]) /\
  (query_field Sample.req_denied "error" <> VStr "access_denied" ->
     t = [EvError (new_Error [query_field Sample.req_denied "error_description";
                              query_field Sample.req_denied "error";
                              query_field Sample.req_denied "error_uri"])]) /\
  count is_outcome t = 1%nat /\
  completion_of (run (authenticate Sample.env (VObj Sample.req_denied) VUndef)
                     Sample.strategy) = Normal tt.
Proof.
  split; [reflexivity|].
  apply (C2_provider_error Sample.env Sample.strategy Sample.req_denied VUndef).
  reflexivity.
Defined.

(** C2, as stated, fails.  The request [?error=] carries an [error] field
    whose value is not ['access_denied'], yet [authenticate] redirects and
    calls [error] not at all; and on ['access_denied'] the challenge given to
    [fail] is the object [{message: description}], not the description. *)
Lemma C2_counterexample :
  Sample.req_empty_error !! "query" = Some (VObj {[ "error" := VStr "" ]}) /\
  trace_of (run (authenticate Sample.env (VObj Sample.req_empty_error) VUndef)
                Sample.strategy)
    = [EvRedirect (Sample.auth_url Sample.client (VObj ∅))] /\
  trace_of (run (authenticate Sample.env (VObj Sample.req_denied) VUndef)
                Sample.strategy)
    = [EvFail (VObj {[ "message" := VStr "The user said no" ]})] /\
  EvFail (VObj {[ "message" := VStr "The user said no" ]})
    <> EvFail (VStr "The user said no").
Proof.
  split; [reflexivity|]. split; [reflexivity|]. split; [reflexivity|].
  discriminate.
Qed.

(** C4.  For a request whose query carries a [code] field and no [error]
    field, when the exchange that [authenticate] then starts fails
    ([getToken] calls back with an error), [authenticate] calls [error]
    exactly once, with the failure wrapped by [_createOAuthError] under the
    message ['Failed to obtain access token'] (which does not throw), and
    the profile fetch is never invoked. *)
Theorem C4_exchange_failure
    (E : Env) (s : Strategy) (r : gmap string value) (options err tokens : value) :
  truthy (query_field r "error") = false ->
  truthy (query_field r "code") = true ->
  getToken E (oauth2Client s) (query_field r "code") = [(err, tokens)] ->
  truthy err = true ->
  let t := trace_of (run (authenticate E (VObj r) options) s) in
  exists e,
    _createOAuthError E (VStr "Failed to obtain access token") err = Normal e /\
    t = [EvGetToken (query_field r "code"); EvError e] /\
    outcomes t = [EvError e] /\
    count is_profile_fetch t = 0%nat /\
    completion_of (run (authenticate E (VObj r) options) s) = Normal tt.
Proof.
  intros He Hc Hg Herr t.
  destruct (authenticate_exchange_error E s r options err tokens He Hc Hg Herr)
    as (e & Hn & Hr).
  exists e. subst t. rewrite Hr. repeat split; assumption.
Qed.

Lemma C4_exchange_failure_witness :
  truthy (query_field Sample.req_code "error") = false /\
  truthy (query_field Sample.req_code "code") = true /\
  getToken Sample.env_exchange_fails (oauth2Client Sample.strategy)
           (query_field Sample.req_code "code") = [(Sample.failure, VUndef)] /\
  truthy Sample.failure = true /\
  exists e,
    _createOAuthError Sample.env_exchange_fails
      (VStr "Failed to obtain access token") Sample.failure = Normal e /\
    trace_of (run (authenticate Sample.env_exchange_fails (VObj Sample.req_code) VUndef)
                  Sample.strategy) = [EvGetToken (VStr "abc123"); EvError e].
Proof.
  split; [reflexivity|]. split; [reflexivity|]. split; [reflexivity|].
  split; [reflexivity|].
  destruct (C4_exchange_failure Sample.env_exchange_fails Sample.strategy
              Sample.req_code VUndef Sample.failure VUndef
              eq_refl eq_refl eq_refl eq_refl)
    as (e & Hn & Ht & _).
  exists e. split; [exact Hn | exact Ht].
Defined.

(** C5.  After a successful exchange (the callback of [getToken] receives no
    error and a token set): the refresh token is the token set's
    [refresh_token], or [null] when that is absent, and never [undefined];
    [setCredentials] stores the token set in the OAuth2 client before the
    profile fetch, and the profile fetch is called with that client; the
    verify callback receives the access token and the resolved refresh
    token.  In particular the token set [{access_token: "AT1"}] makes a
    four-parameter verify callback (request-passthrough disabled) be invoked
    as [("AT1", null, profile, verified)]. *)
Theorem C5_credentials_and_refresh_token
    (E : Env) (s : Strategy) (r : gmap string value) (options e0 tokens : value) :
  truthy (query_field r "error") = false ->
  truthy (query_field r "code") = true ->
  getToken E (oauth2Client s) (query_field r "code") = [(e0, tokens)] ->
  truthy e0 = false ->
  nullish tokens = false ->
  let t := trace_of (run (authenticate E (VObj r) options) s) in
  let client' := oauth2Client (with_credentials s tokens) in
  let accessToken := prop tokens "access_token" in
  let refreshToken := js_or (prop tokens "refresh_token") VNull in
  refreshToken <> VUndef /\
  (truthy (prop tokens "refresh_token") = true ->
     refreshToken = prop tokens "refresh_token") /\
  (prop tokens "refresh_token" = VUndef -> refreshToken = VNull) /\
  credentials client' = tokens /\
  (exists rest,
     t = EvGetToken (query_field r "code") :: EvSetCredentials tokens ::
         EvUserinfoGet client' :: rest) /\
  (forall e1 profile f n,
     userinfo_get E client' = [(e1, profile)] -> truthy e1 = false ->
     _verify s = VFun f n ->
     exists rest,
       t = EvGetToken (query_field r "code") :: EvSetCredentials tokens ::
           EvUserinfoGet client' ::
           EvVerify (dispatch_args (truthy (_passReqToCallback s)) n (VObj r)
                                   accessToken refreshToken profile) :: rest) /\
  (forall e1 profile f n,
     tokens = VObj {[ "access_token" := VStr "AT1" ]} ->
     userinfo_get E client' = [(e1, profile)] -> truthy e1 = false ->
     _verify s = VFun f n -> truthy (_passReqToCallback s) = false -> n <> 5 ->
     exists rest,
       t = EvGetToken (query_field r "code") :: EvSetCredentials tokens ::
           EvUserinfoGet client' ::
           EvVerify [VStr "AT1"; VNull; profile; verified_fn] :: rest).
Proof.
  intros He Hc Hg He0 Hn t client' accessToken refreshToken.
  assert (Hv : forall e1 profile f n,
     userinfo_get E client' = [(e1, profile)] -> truthy e1 = false ->
     _verify s = VFun f n ->
     exists rest,
       t = EvGetToken (query_field r "code") :: EvSetCredentials tokens ::
           EvUserinfoGet client' ::
           EvVerify (dispatch_args (truthy (_passReqToCallback s)) n (VObj r)
                                   accessToken refreshToken profile) :: rest).
  { intros e1 profile f n Hu He1 Hf. subst t.
    rewrite (authenticate_verify_run E s r options e0 tokens e1 profile f n
               He Hc Hg He0 Hn Hu He1 Hf).
    eexists. reflexivity. }
  split; [apply js_or_null_not_undef|].
  split; [intros Ht; subst refreshToken; unfold js_or; rewrite Ht; reflexivity|].
  split; [intros Ht; subst refreshToken; rewrite Ht; reflexivity|].
  split; [reflexivity|].
  split.
  - destruct (authenticate_exchange_ok E s r options e0 tokens He Hc Hg He0 Hn)
      as (t' & w' & _ & _ & Hr).
    exists t'. subst t. rewrite Hr. reflexivity.
  - split; [exact Hv|].
    intros e1 profile f n Htok Hu He1 Hf Hp Hn5.
    destruct (Hv e1 profile f n Hu He1 Hf) as [rest Hrest].
    exists rest. rewrite Hrest. subst accessToken refreshToken.
    rewrite Hp, Htok. unfold dispatch_args.
    destruct (Z.eqb_spec n 5) as [->|_]; [contradiction|]. reflexivity.
Qed.

Lemma C5_credentials_and_refresh_token_witness :
  truthy (query_field Sample.req_code "error") = false /\
  truthy (query_field Sample.req_code "code") = true /\
  getToken Sample.env (oauth2Client Sample.strategy)
           (query_field Sample.req_code "code") = [(VNull, Sample.tokens)] /\
  truthy VNull = false /\
  nullish Sample.tokens = false /\
  exists rest,
    trace_of (run (authenticate Sample.env (VObj Sample.req_code) VUndef) Sample.strategy) =
      EvGetToken (VStr "abc123") :: EvSetCredentials Sample.tokens ::
      EvUserinfoGet (oauth2Client (with_credentials Sample.strategy Sample.tokens)) ::
      EvVerify [VStr "AT1"; VNull; Sample.profile; verified_fn] :: rest.
Proof.
  split; [reflexivity|]. split; [reflexivity|]. split; [reflexivity|].
  split; [reflexivity|]. split; [reflexivity|].
  destruct (C5_credentials_and_refresh_token Sample.env Sample.strategy
              Sample.req_code VUndef VNull Sample.tokens
              eq_refl eq_refl eq_refl eq_refl eq_refl)
    as (_ & _ & _ & _ & _ & _ & H).
  apply (H VNull Sample.profile "verify" 4 eq_refl eq_refl eq_refl eq_refl eq_refl).
  discriminate.
Defined.

(** C6.  After a successful profile fetch the verify callback is invoked
    exactly once, with an argument list fixed by its declared parameter
    count [n]: request-passthrough disabled, [n = 5] receives
    [(accessToken, refreshToken, {}, profile, verified)] and any other [n]
    receives [(accessToken, refreshToken, profile, verified)];
    request-passthrough enabled, [n = 6] receives
    [(req, accessToken, refreshToken, {}, profile, verified)] and any other
    [n] receives [(req, accessToken, refreshToken, profile, verified)];
    [{}] is the empty object. *)
Theorem C6_verify_arguments
    (E : Env) (s : Strategy) (r : gmap string value)
    (options e0 tokens e1 profile : value) (f : string) (n : Z) :
  truthy (query_field r "error") = false ->
  truthy (query_field r "code") = true ->
  getToken E (oauth2Client s) (query_field r "code") = [(e0, tokens)] ->
  truthy e0 = false ->
  nullish tokens = false ->
  userinfo_get E (oauth2Client (with_credentials s tokens)) = [(e1, profile)] ->
  truthy e1 = false ->
  _verify s = VFun f n ->
  let calls := List.filter is_verify (trace_of (run (authenticate E (VObj r) options) s)) in
  let req := VObj r in
  let accessToken := prop tokens "access_token" in
  let refreshToken := js_or (prop tokens "refresh_token") VNull in
  calls = [EvVerify (dispatch_args (truthy (_passReqToCallback s)) n req
                                   accessToken refreshToken profile)] /\
  (truthy (_passReqToCallback s) = false -> n = 5 ->
     calls = [EvVerify [accessToken; refreshToken; VObj ∅; profile; verified_fn]]) /\
  (truthy (_passReqToCallback s) = false -> n <> 5 ->
     calls = [EvVerify [accessToken; refreshToken; profile; verified_fn]]) /\
  (truthy (_passReqToCallback s) = true -> n = 6 ->
     calls = [EvVerify [req; accessToken; refreshToken; VObj ∅; profile; verified_fn]]) /\
  (truthy (_passReqToCallback s) = true -> n <> 6 ->
     calls = [EvVerify [req; accessToken; refreshToken; profile; verified_fn]]).
Proof.
  intros He Hc Hg He0 Hn Hu He1 Hf calls req accessToken refreshToken.
  assert (Hcalls : calls =
    [EvVerify (dispatch_args (truthy (_passReqToCallback s)) n req
                             accessToken refreshToken profile)]).
  { subst calls.
    rewrite (authenticate_verify_run E s r options e0 tokens e1 profile f n
               He Hc Hg He0 Hn Hu He1 Hf).
    unfold trace_of. simpl. rewrite List.filter_app.
    rewrite (filter_out_run_events _ _ outcome_not_verify).
    rewrite (filter_out_resolutions _ _ outcome_not_verify). reflexivity. }
  split; [exact Hcalls|].
  rewrite Hcalls. unfold dispatch_args.
  repeat split; intros Hp Hn'; rewrite Hp.
  - subst n. reflexivity.
  - destruct (Z.eqb_spec n 5); [contradiction | reflexivity].
  - subst n. reflexivity.
  - destruct (Z.eqb_spec n 6); [contradiction | reflexivity].
Qed.

Lemma C6_verify_arguments_witness :
  truthy (query_field Sample.req_code "error") = false /\
  truthy (query_field Sample.req_code "code") = true /\
  getToken Sample.env (oauth2Client Sample.strategy5)
           (query_field Sample.req_code "code") = [(VNull, Sample.tokens)] /\
  truthy VNull = false /\
  nullish Sample.tokens = false /\
  userinfo_get Sample.env (oauth2Client (with_credentials Sample.strategy5 Sample.tokens))
    = [(VNull, Sample.profile)] /\
  _verify Sample.strategy5 = VFun "verify" 5 /\
  List.filter is_verify
    (trace_of (run (authenticate Sample.env (VObj Sample.req_code) VUndef) Sample.strategy5))
    = [EvVerify [VStr "AT1"; VNull; VObj ∅; Sample.profile; verified_fn]].
Proof.
  do 7 (split; [reflexivity|]).
  destruct (C6_verify_arguments Sample.env Sample.strategy5 Sample.req_code
              VUndef VNull Sample.tokens VNull Sample.profile "verify" 5
              eq_refl eq_refl eq_refl eq_refl eq_refl eq_refl eq_refl eq_refl)
    as (_ & H & _).
  apply H; reflexivity.
Defined.

(** C7.  The calls [done(err, user, info)] of the verify callback resolve
    the attempt, each as: [err] present, [error(err)]; [err] absent and
    [user] absent, [fail(info)]; otherwise [success(user, info)], where
    present means truthy, as the code tests it.  An exception that the
    verify callback throws while it is invoked is caught and surfaces as
    [error] with the thrown value: nothing is left uncaught and nothing
    propagates. *)
Theorem C7_done_resolves_attempt
    (E : Env) (s : Strategy) (r : gmap string value)
    (options e0 tokens e1 profile : value) (f : string) (n : Z) :
  truthy (query_field r "error") = false ->
  truthy (query_field r "code") = true ->
  getToken E (oauth2Client s) (query_field r "code") = [(e0, tokens)] ->
  truthy e0 = false ->
  nullish tokens = false ->
  userinfo_get E (oauth2Client (with_credentials s tokens)) = [(e1, profile)] ->
  truthy e1 = false ->
  _verify s = VFun f n ->
  let res := run (authenticate E (VObj r) options) s in
  let vr := call E f (dispatch_args (truthy (_passReqToCallback s)) n (VObj r)
                        (prop tokens "access_token")
                        (js_or (prop tokens "refresh_token") VNull) profile) in
  (forall err user info,
     sync_done vr ++ later_done vr = [(err, user, info)] -> raised vr = None ->
     (truthy err = true -> outcomes (trace_of res) = [EvError err]) /\
     (truthy err = false -> truthy user = false ->
        outcomes (trace_of res) = [EvFail info]) /\
     (truthy err = false -> truthy user = true ->
        outcomes (trace_of res) = [EvSuccess user info])) /\
  (forall ex,
     raised vr = Some ex ->
     outcomes (trace_of res) =
       map resolution (sync_done vr) ++ [EvError ex] ++ map resolution (later_done vr)) /\
  (raised vr = None ->
     outcomes (trace_of res) = map resolution (sync_done vr ++ later_done vr)) /\
  count is_uncaught (trace_of res) = 0%nat /\
  completion_of res = Normal tt.
Proof.
  intros He Hc Hg He0 Hn Hu He1 Hf res vr.
  assert (Hout : outcomes (trace_of res) =
                 run_events vr ++ map resolution (later_done vr)).
  { subst res. 
    rewrite (authenticate_verify_run E s r options e0 tokens e1 profile f n
               He Hc Hg He0 Hn Hu He1 Hf).
    unfold trace_of, outcomes. simpl. rewrite List.filter_app.
    fold (outcomes (run_events vr)). rewrite outcomes_run_events.
    rewrite filter_resolutions by reflexivity. reflexivity. }
  assert (Hnone : raised vr = None ->
     outcomes (trace_of res) = map resolution (sync_done vr ++ later_done vr)).
  { intros Hr. rewrite Hout. unfold run_events. rewrite Hr, app_nil_r, map_app.
    reflexivity. }
  split.
  { intros err user info Hd Hr. rewrite (Hnone Hr), Hd. simpl.
    repeat split.
    - intros ->. reflexivity.
    - intros -> ->. reflexivity.
    - intros -> ->. reflexivity. }
  split.
  { intros ex Hr. rewrite Hout. unfold run_events. rewrite Hr, <- app_assoc.
    reflexivity. }
  split; [exact Hnone|].
  subst res.
  rewrite (authenticate_verify_run E s r options e0 tokens e1 profile f n
             He Hc Hg He0 Hn Hu He1 Hf).
  split; [|reflexivity].
  unfold trace_of, count. simpl. rewrite List.filter_app.
  rewrite (filter_out_run_events _ _ outcome_not_uncaught).
  rewrite (filter_out_resolutions _ _ outcome_not_uncaught). reflexivity.
Qed.

Lemma C7_done_resolves_attempt_witness :
  truthy (query_field Sample.req_code "error") = false /\
  truthy (query_field Sample.req_code "code") = true /\
  getToken Sample.env_verify_throws (oauth2Client Sample.strategy)
           (query_field Sample.req_code "code") = [(VNull, Sample.tokens)] /\
  truthy VNull = false /\
  nullish Sample.tokens = false /\
  userinfo_get Sample.env_verify_throws
    (oauth2Client (with_credentials Sample.strategy Sample.tokens))
    = [(VNull, Sample.profile)] /\
  _verify Sample.strategy = VFun "verify" 4 /\
  outcomes (trace_of (run (authenticate Sample.env_verify_throws (VObj Sample.req_code)
                                        VUndef) Sample.strategy))
    = [EvError Sample.boom].
Proof.
  do 7 (split; [reflexivity|]).
  destruct (C7_done_resolves_attempt Sample.env_verify_throws Sample.strategy
              Sample.req_code VUndef VNull Sample.tokens VNull Sample.profile "verify" 4
              eq_refl eq_refl eq_refl eq_refl eq_refl eq_refl eq_refl eq_refl)
    as (_ & H & _).
  apply (H Sample.boom). reflexivity.
Defined.

(** C1, as amended.  When the token exchange and the profile fetch each call
    back exactly once (a successful exchange with a token set) and every run
    of the verify callback reports once (one call of [done] and a normal
    return, at once or later, or an exception and no call of [done]), an
    invocation of [authenticate] produces exactly one terminal action among
    [success], [fail], [error] and [redirect]; nothing is thrown and nothing
    is left uncaught. *)
Theorem C1_exactly_one_terminal_action
    (E : Env) (s : Strategy) (r : gmap string value) (options : value) :
  (forall c code, exists e t,
      getToken E c code = [(e, t)] /\ (truthy e = false -> nullish t = false)) ->
  (forall c, exists e p, userinfo_get E c = [(e, p)]) ->
  (forall f args, reports_once (call E f args)) ->
  let res := run (authenticate E (VObj r) options) s in
  count is_terminal (trace_of res) = 1%nat /\
  count is_uncaught (trace_of res) = 0%nat /\
  completion_of res = Normal tt.
Proof.
  intros Hg Hu Hv res. subst res.
  destruct (truthy (query_field r "error")) eqn:He.
  { rewrite (authenticate_error_branch E s r options He).
    destruct (strict_eq_str _ _); repeat split; reflexivity. }
  destruct (truthy (query_field r "code")) eqn:Hc.
  2:{ destruct (authenticate_redirect_branch E s r options He Hc) as (params & _ & ->).
      repeat split; reflexivity. }
  destruct (Hg (oauth2Client s) (query_field r "code")) as (e0 & tokens & Hgt & Htok).
  destruct (truthy e0) eqn:He0.
  { destruct (authenticate_exchange_error E s r options e0 tokens He Hc Hgt He0)
      as (e & _ & ->).
    repeat split; reflexivity. }
  destruct (authenticate_exchange_ok E s r options e0 tokens He Hc Hgt He0 (Htok eq_refl))
    as (t & w' & Ha & _ & ->).
  destruct (Hu (oauth2Client (with_credentials s tokens))) as (e1 & p & Hup).
  rewrite Hup in Ha.
  destruct (profile_reply_once E (VObj r) (prop tokens "access_token")
              (js_or (prop tokens "refresh_token") VNull) e1 p
              {| self := with_credentials s tokens; tasks := [] |} Hv eq_refl)
    as (t1 & w1 & Ha1 & Hterm & Hunc).
  rewrite Ha1 in Ha. injection Ha as <- <-.
  unfold trace_of, completion_of. cbn [fst snd].
  rewrite !count_cons. cbn [is_terminal is_outcome is_redirect is_uncaught orb].
  rewrite Hterm, Hunc. repeat split; reflexivity.
Qed.

Lemma C1_exactly_one_terminal_action_witness :
  (forall c code, exists e t,
      getToken Sample.env c code = [(e, t)] /\ (truthy e = false -> nullish t = false)) /\
  (forall c, exists e p, userinfo_get Sample.env c = [(e, p)]) /\
  (forall f args, reports_once (call Sample.env f args)) /\
  count is_terminal
    (trace_of (run (authenticate Sample.env (VObj Sample.req_code) VUndef) Sample.strategy))
    = 1%nat.
Proof.
  assert (Hg : forall c code, exists e t,
      getToken Sample.env c code = [(e, t)] /\ (truthy e = false -> nullish t = false)).
  { intros c code. exists VNull, Sample.tokens. split; [reflexivity|]. intros _. reflexivity. }
  assert (Hu : forall c, exists e p, userinfo_get Sample.env c = [(e, p)]).
  { intros c. exists VNull, Sample.profile. reflexivity. }
  assert (Hv : forall f args, reports_once (call Sample.env f args)).
  { intros f args. left. exists (VNull, Sample.user, VUndef). repeat split; reflexivity. }
  split; [exact Hg|]. split; [exact Hu|]. split; [exact Hv|].
  exact (proj1 (C1_exactly_one_terminal_action Sample.env Sample.strategy
                  Sample.req_code VUndef Hg Hu Hv)).
Defined.

(** C1, as stated, fails.  The first leg of the flow (no [code], no [error])
    ends in a redirect and produces none of [success], [fail] and [error];
    and a verify callback that calls [done(null, user)] and then throws makes
    [authenticate] call [success] and then [error]. *)
Lemma C1_counterexample :
  outcomes (trace_of (run (authenticate Sample.env (VObj Sample.req_initial) VUndef)
                          Sample.strategy)) = [] /\
  outcomes (trace_of (run (authenticate Sample.env_done_then_throw (VObj Sample.req_code)
                                        VUndef) Sample.strategy))
    = [EvSuccess Sample.user VUndef; EvError Sample.boom].
Proof. split; reflexivity. Qed.

(** C8, as amended.  For a failure value other than [undefined] and [null],
    [_createOAuthError] does not throw, and its result is fixed by the
    message, the failure and what [JSON.parse] returns for the failure's
    data.  If the failure's [statusCode] and [data] are both truthy and the
    data parses as JSON to a value whose [error] member is truthy, the
    result is [new Error(error_description, error, error_uri)] of that
    payload, whose message is the payload's [error_description] when that is
    a string.  In every other case (a falsy or missing [statusCode] or
    [data], data that does not parse, a payload whose [error] member is
    missing or falsy) the parse failure is swallowed and the result is the
    generic [new Error(message, failure)]. *)
Theorem C8_createOAuthError_normalizes (E : Env) (message err : value) :
  nullish err = false ->
  let sc := prop err "statusCode" in
  let data := prop err "data" in
  (exists e, _createOAuthError E message err = Normal e /\ truthy e = true) /\
  (forall json,
     truthy sc = true -> truthy data = true ->
     JSON_parse E data = Some json -> truthy (prop json "error") = true ->
     _createOAuthError E message err =
       Normal (new_Error [prop json "error_description"; prop json "error";
                          prop json "error_uri"]) /\
     forall d, prop json "error_description" = VStr d ->
       error_message (new_Error [prop json "error_description"; prop json "error";
                                 prop json "error_uri"]) = Some d) /\
  (truthy sc = false \/ truthy data = false \/ JSON_parse E data = None \/
   (exists json, JSON_parse E data = Some json /\ truthy (prop json "error") = false) ->
   _createOAuthError E message err = Normal (new_Error [message; err])).
Proof.
  intros Hn sc data. rewrite (createOAuthError_steps E message err Hn).
  fold sc data. split; [|split].
  - destruct (truthy sc && truthy data); [|eexists; split; reflexivity].
    destruct (JSON_parse E data) as [json|]; [|eexists; split; reflexivity].
    destruct (truthy (prop json "error")); eexists; split; reflexivity.
  - intros json Hs Hd Hj He. rewrite Hs, Hd, Hj, He. split; [reflexivity|].
    intros d ->. reflexivity.
  - intros [Hs | [Hd | [Hj | (json & Hj & He)]]].
    + rewrite Hs. reflexivity.
    + rewrite Hd, andb_false_r. reflexivity.
    + rewrite Hj. destruct (truthy sc && truthy data); reflexivity.
    + rewrite Hj, He. destruct (truthy sc && truthy data); reflexivity.
Qed.

Lemma C8_createOAuthError_normalizes_witness :
  nullish Sample.failure = false /\
  prop Sample.failure "statusCode" = VNum 400 /\
  JSON_parse Sample.env (prop Sample.failure "data")
    = Some (VObj {[ "error" := VStr "invalid_grant";
                    "error_description" := VStr "bad code" ]}) /\
  _createOAuthError Sample.env (VStr "Failed to obtain access token") Sample.failure
    = Normal (new_Error [VStr "bad code"; VStr "invalid_grant"; VUndef]) /\
  error_message (new_Error [VStr "bad code"; VStr "invalid_grant"; VUndef])
    = Some "bad code" /\
  JSON_parse Sample.env (prop Sample.failure_unparsable "data") = None /\
  _createOAuthError Sample.env (VStr "Failed to obtain access token")
                    Sample.failure_unparsable
    = Normal (new_Error [VStr "Failed to obtain access token"; Sample.failure_unparsable]).
Proof.
  split; [reflexivity|]. split; [reflexivity|]. split; [reflexivity|].
  destruct (C8_createOAuthError_normalizes Sample.env
              (VStr "Failed to obtain access token") Sample.failure eq_refl)
    as (_ & Hparsed & _).
  assert (Hs : truthy (prop Sample.failure "statusCode") = true) by reflexivity.
  assert (Hd : truthy (prop Sample.failure "data") = true) by reflexivity.
  assert (Hj : JSON_parse Sample.env (prop Sample.failure "data")
               = Some (VObj {[ "error" := VStr "invalid_grant";
                               "error_description" := VStr "bad code" ]}))
    by reflexivity.
  assert (He : truthy (prop (VObj {[ "error" := VStr "invalid_grant";
                                     "error_description" := VStr "bad code" ]})
                            "error") = true) by reflexivity.
  destruct (Hparsed _ Hs Hd Hj He) as [Hres Hmsg].
  split; [exact Hres|]. split; [reflexivity|].
  split; [reflexivity|].
  destruct (C8_createOAuthError_normalizes Sample.env
              (VStr "Failed to obtain access token") Sample.failure_unparsable eq_refl)
    as (_ & _ & Hgeneric).
  apply Hgeneric. right. right. left. reflexivity.
Defined.

(** C8, as stated, fails.  For the failure value [undefined] the function
    throws a [TypeError]; and a failure whose payload is
    [{"error":"","error_description":"bad code"}] (status code 400) carries a
    payload that parses as JSON and contains an [error] field, yet the result
    is the generic error, whose message is the provided one and not
    ["bad code"]. *)
Lemma C8_counterexample :
  _createOAuthError Sample.env (VStr "Failed to obtain access token") VUndef
    = Throw (new_TypeError "Cannot read properties of undefined or null") /\
  JSON_parse Sample.env (prop Sample.failure_empty_error "data")
    = Some (VObj {[ "error" := VStr ""; "error_description" := VStr "bad code" ]}) /\
  _createOAuthError Sample.env (VStr "Failed to obtain access token")
                    Sample.failure_empty_error
    = Normal (new_Error [VStr "Failed to obtain access token";
                         Sample.failure_empty_error]) /\
  error_message (new_Error [VStr "Failed to obtain access token";
                            Sample.failure_empty_error])
    = Some "Failed to obtain access token".
Proof. repeat split; reflexivity. Qed.

(** C9.  The constructor does not keep the [scope] of its options: a
    strategy built with [scope: "email"] has no [_scope], and
    [authorizationParams({})] on it returns the empty mapping, not
    [{scope: "email"}].  The rest of the claim holds on the code: a call-time
    [scope] and [accessType] give [{scope: "a b", access_type: "offline"}],
    and a [_scope] property, when the strategy has one, is the default. *)
Theorem C9_constructor_drops_scope :
  GoogleAPIsStrategy Sample.options_with_scope Sample.verify4 = Normal Sample.strategy /\
  prop Sample.options_with_scope "scope" = VStr "email" /\
  _scope Sample.strategy = VUndef /\
  authorizationParams Sample.strategy (VObj ∅) = Normal (VObj ∅) /\
  authorizationParams Sample.strategy
      (VObj {[ "scope" := VStr "a b"; "accessType" := VStr "offline" ]})
    = Normal (VObj {[ "scope" := VStr "a b"; "access_type" := VStr "offline" ]}) /\
  authorizationParams
      {| name := name Sample.strategy; _verify := _verify Sample.strategy;
         oauth2Client := oauth2Client Sample.strategy;
         _passReqToCallback := VUndef; _scope := VStr "email" |}
      (VObj ∅)
    = Normal (VObj {[ "scope" := VStr "email" ]}).
Proof. repeat split; reflexivity. Qed.

(** * Further properties of the code *)

(** ** The constructor *)

Lemma prop_js_or_obj o k :
  String.eqb k "length" = false -> prop (js_or o (VObj ∅)) k = prop o k.
Proof.
  intros Hk. unfold js_or. destruct o; simpl; try reflexivity.
  - destruct b; reflexivity.
  - destruct (Z.eqb n 0); reflexivity.
  - destruct s; simpl; [rewrite Hk|]; reflexivity.
Qed.

Lemma constructor_steps options verify :
  is_function options = false ->
  GoogleAPIsStrategy options verify =
    if negb (truthy verify)
    then Throw (new_TypeError "GoogleAPIsStrategy requires a verify callback")
    else if negb (truthy (prop options "clientID"))
    then Throw (new_TypeError "GoogleAPIsStrategy requires a clientID option")
    else if negb (truthy (prop options "clientSecret"))
    then Throw (new_TypeError "GoogleAPIsStrategy requires a clientSecret option")
    else if negb (truthy (prop options "redirectURL"))
    then Throw (new_TypeError "GoogleAPIsStrategy requires a redirectURL option")
    else Normal (built options verify).
Proof.
  intros Hf. unfold GoogleAPIsStrategy. rewrite Hf. cbv zeta.
  rewrite !(get_prop_not_nullish _ _ (js_or_obj_not_nullish options)).
  rewrite !prop_js_or_obj by reflexivity.
  unfold mbind, completion_bind, built.
  destruct (truthy verify); [|reflexivity].
  destruct (truthy (prop options "clientID")); [|reflexivity].
  destruct (truthy (prop options "clientSecret")); [|reflexivity].
  destruct (truthy (prop options "redirectURL")); reflexivity.
Qed.

(** X1.  [new GoogleAPIsStrategy(options, verify)] returns a strategy exactly
    when [options] is not a function, [verify] is truthy and the options'
    [clientID], [clientSecret] and [redirectURL] are truthy; the strategy is
    then named ['googleapis'], keeps [verify], holds a client made from the
    three options with empty credentials, and has no [_scope] and no
    [_passReqToCallback]. *)
Theorem X1_constructor_accepts_iff (options verify : value) (s : Strategy) :
  GoogleAPIsStrategy options verify = Normal s <->
  is_function options = false /\
  truthy verify = true /\
  truthy (prop options "clientID") = true /\
  truthy (prop options "clientSecret") = true /\
  truthy (prop options "redirectURL") = true /\
  s = built options verify.
Proof.
  destruct (is_function options) eqn:Hf.
  - destruct (is_function_true _ Hf) as (f & n & ->). split.
    + discriminate.
    + intros [H _]. discriminate.
  - rewrite (constructor_steps _ _ Hf).
    destruct (truthy verify); simpl;
      [|split; [discriminate | intros (_ & H & _); discriminate]].
    destruct (truthy (prop options "clientID")); simpl;
      [|split; [discriminate | intros (_ & _ & H & _); discriminate]].
    destruct (truthy (prop options "clientSecret")); simpl;
      [|split; [discriminate | intros (_ & _ & _ & H & _); discriminate]].
    destruct (truthy (prop options "redirectURL")); simpl;
      [|split; [discriminate | intros (_ & _ & _ & _ & H & _); discriminate]].
    split.
    + intros [= <-]. repeat split; reflexivity.
    + intros (_ & _ & _ & _ & _ & ->). reflexivity.
Qed.

(** X2.  The one-argument form [new GoogleAPIsStrategy(verify)] never
    builds a strategy: the function becomes the verify callback, the options
    become the empty object, and the constructor throws the [TypeError] that
    asks for a [clientID] option, whatever the second argument is. *)
Theorem X2_constructor_verify_only_throws (f : string) (n : Z) (second : value) :
  GoogleAPIsStrategy (VFun f n) second =
    Throw (new_TypeError "GoogleAPIsStrategy requires a clientID option").
Proof. reflexivity. Qed.

(** X3.  The constructor reports the first missing piece, in the order
    verify callback, [clientID], [clientSecret], [redirectURL]: a falsy
    verify is reported whatever the options are, and a missing option is
    reported only when everything before it is there. *)
Theorem X3_constructor_rejections (options verify : value) :
  is_function options = false ->
  (truthy verify = false ->
     GoogleAPIsStrategy options verify =
       Throw (new_TypeError "GoogleAPIsStrategy requires a verify callback")) /\
  (truthy verify = true -> truthy (prop options "clientID") = false ->
     GoogleAPIsStrategy options verify =
       Throw (new_TypeError "GoogleAPIsStrategy requires a clientID option")) /\
  (truthy verify = true -> truthy (prop options "clientID") = true ->
   truthy (prop options "clientSecret") = false ->
     GoogleAPIsStrategy options verify =
       Throw (new_TypeError "GoogleAPIsStrategy requires a clientSecret option")) /\
  (truthy verify = true -> truthy (prop options "clientID") = true ->
   truthy (prop options "clientSecret") = true ->
   truthy (prop options "redirectURL") = false ->
     GoogleAPIsStrategy options verify =
       Throw (new_TypeError "GoogleAPIsStrategy requires a redirectURL option")).
Proof.
  intros Hf. rewrite (constructor_steps _ _ Hf).
  repeat split.
  - intros ->. reflexivity.
  - intros -> ->. reflexivity.
  - intros -> -> ->. reflexivity.
  - intros -> -> -> ->. reflexivity.
Qed.

Lemma X3_constructor_rejections_witness :
  is_function Sample.options_no_secret = false /\
  GoogleAPIsStrategy Sample.options_no_secret VUndef =
    Throw (new_TypeError "GoogleAPIsStrategy requires a verify callback") /\
  GoogleAPIsStrategy Sample.options_no_secret Sample.verify4 =
    Throw (new_TypeError "GoogleAPIsStrategy requires a clientSecret option").
Proof.
  split; [reflexivity|].
  destruct (X3_constructor_rejections Sample.options_no_secret VUndef eq_refl)
    as (Hv & _).
  destruct (X3_constructor_rejections Sample.options_no_secret Sample.verify4 eq_refl)
    as (_ & _ & Hs & _).
  split; [apply Hv; reflexivity | apply Hs; reflexivity].
Defined.

(** ** [parseErrorResponse] and [authorizationParams] *)

(** X4.  [parseErrorResponse(body, status)] throws when the body does not
    parse as JSON or parses to [null]; returns [null] when the parsed value
    has no truthy [error] member; and otherwise returns
    [new Error(error_description, error, error_uri)] of the parsed value.
    Its [status] argument has no influence on the result. *)
Theorem X4_parseErrorResponse_cases (E : Env) (body status : value) :
  (JSON_parse E body = None ->
     exists ex, parseErrorResponse E body status = Throw ex) /\
  (forall json, JSON_parse E body = Some json ->
     (nullish json = true ->
        exists ex, parseErrorResponse E body status = Throw ex) /\
     (nullish json = false -> truthy (prop json "error") = false ->
        parseErrorResponse E body status = Normal VNull) /\
     (truthy (prop json "error") = true ->
        parseErrorResponse E body status =
          Normal (new_Error [prop json "error_description"; prop json "error";
                             prop json "error_uri"]))) /\
  (forall status', parseErrorResponse E body status' = parseErrorResponse E body status).
Proof.
  unfold parseErrorResponse. split; [|split].
  - intros ->. eexists. reflexivity.
  - intros json ->. unfold mbind, completion_bind, get_prop. repeat split.
    + intros ->. eexists. reflexivity.
    + intros -> ->. reflexivity.
    + intros Ht. destruct (nullish json) eqn:Hn.
      * destruct json; discriminate.
      * rewrite Ht. reflexivity.
  - reflexivity.
Qed.

(** X5.  For options other than [undefined] and [null],
    [authorizationParams] returns a mapping with at most the keys [scope]
    and [access_type].  [scope] is the call-time [scope] when that is
    truthy, else the strategy's [_scope], and is left out when both are
    falsy; [access_type] is the call-time [accessType] when that is truthy,
    else the call-time [access_type], and is left out when both are falsy.
    No other option is copied. *)
Theorem X5_authorizationParams_mapping (s : Strategy) (o : value) :
  nullish o = false ->
  exists m : gmap string value,
    authorizationParams s o = Normal (VObj m) /\
    m !! "scope" =
      (if truthy (prop o "scope") then Some (prop o "scope")
       else if truthy (_scope s) then Some (_scope s) else None) /\
    m !! "access_type" =
      (if truthy (prop o "accessType") then Some (prop o "accessType")
       else if truthy (prop o "access_type") then Some (prop o "access_type")
       else None) /\
    (forall k, k <> "scope" -> k <> "access_type" -> m !! k = None).
Proof.
  intros Hn. rewrite (authorizationParams_steps s o Hn). cbv zeta.
  eexists. split; [reflexivity|].
  unfold js_or.
  destruct (truthy (prop o "scope")) eqn:Hs;
    destruct (truthy (prop o "accessType")) eqn:Ha;
    rewrite ?Hs, ?Ha;
    repeat match goal with
           | |- context [if truthy ?v then _ else _] =>
               let H := fresh "H" in destruct (truthy v) eqn:H; rewrite ?H
           end;
    (split; [|split; [|intros k Hk1 Hk2]]);
    rewrite ?lookup_insert_eq, ?lookup_insert_ne, ?lookup_singleton_eq,
            ?lookup_singleton_ne, ?lookup_empty by congruence;
    reflexivity.
Qed.

Lemma X5_authorizationParams_mapping_witness :
  nullish Sample.call_options = false /\
  exists m : gmap string value,
    authorizationParams Sample.strategy Sample.call_options = Normal (VObj m) /\
    m !! "scope" = Some (VStr "a b") /\
    m !! "access_type" = Some (VStr "offline") /\
    m !! "prompt" = None.
Proof.
  split; [reflexivity|].
  destruct (X5_authorizationParams_mapping Sample.strategy Sample.call_options eq_refl)
    as (m & Hm & Hs & Ha & Hk).
  exists m. split; [exact Hm|]. split; [exact Hs|]. split; [exact Ha|].
  apply Hk; discriminate.
Defined.

(** X6.  [authorizationParams] throws exactly when its argument is
    [undefined] or [null]: it reads [options.scope] with no guard of its
    own (only [authenticate] replaces absent options by the empty object). *)
Theorem X6_authorizationParams_throws_iff (s : Strategy) (o : value) :
  (exists ex, authorizationParams s o = Throw ex) <-> nullish o = true.
Proof.
  split.
  - intros [ex H]. destruct (nullish o) eqn:Hn; [reflexivity|].
    rewrite (authorizationParams_steps s o Hn) in H. discriminate.
  - intros Hn. unfold authorizationParams, get_prop. rewrite Hn.
    eexists. reflexivity.
Qed.

(** ** Other paths of [authenticate] *)

(** X7.  When the exchange succeeds and the profile fetch fails,
    [authenticate] calls [error] once with the fetch failure itself (it is
    not wrapped by [_createOAuthError]) and never invokes the verify
    callback; the token set stays stored in the client. *)
Theorem X7_profile_failure
    (E : Env) (s : Strategy) (r : gmap string value)
    (options e0 tokens e1 profile : value) :
  truthy (query_field r "error") = false ->
  truthy (query_field r "code") = true ->
  getToken E (oauth2Client s) (query_field r "code") = [(e0, tokens)] ->
  truthy e0 = false ->
  nullish tokens = false ->
  userinfo_get E (oauth2Client (with_credentials s tokens)) = [(e1, profile)] ->
  truthy e1 = true ->
  let res := run (authenticate E (VObj r) options) s in
  trace_of res =
    [EvGetToken (query_field r "code"); EvSetCredentials tokens;
     EvUserinfoGet (oauth2Client (with_credentials s tokens)); EvError e1] /\
  count is_verify (trace_of res) = 0%nat /\
  final_self res = with_credentials s tokens /\
  completion_of res = Normal tt.
Proof.
  intros He Hc Hg He0 Hn Hu He1 res. subst res.
  destruct (authenticate_exchange_ok E s r options e0 tokens He Hc Hg He0 Hn)
    as (t & w' & Ha & _ & ->).
  rewrite Hu in Ha.
  rewrite (async_one _ _ _ _ _ _
             (on_profile_error E (VObj r) _ _ e1 profile
                {| self := with_credentials s tokens; tasks := [] |} He1)) in Ha.
  injection Ha as <- <-. repeat split; reflexivity.
Qed.

Lemma X7_profile_failure_witness :
  truthy (query_field Sample.req_code "error") = false /\
  truthy (query_field Sample.req_code "code") = true /\
  getToken Sample.env_profile_fails (oauth2Client Sample.strategy)
           (query_field Sample.req_code "code") = [(VNull, Sample.tokens)] /\
  nullish Sample.tokens = false /\
  userinfo_get Sample.env_profile_fails
    (oauth2Client (with_credentials Sample.strategy Sample.tokens))
    = [(Sample.boom, VUndef)] /\
  truthy Sample.boom = true /\
  outcomes (trace_of (run (authenticate Sample.env_profile_fails (VObj Sample.req_code)
                                        VUndef) Sample.strategy))
    = [EvError Sample.boom].
Proof.
  do 6 (split; [reflexivity|]).
  destruct (X7_profile_failure Sample.env_profile_fails Sample.strategy Sample.req_code
              VUndef VNull Sample.tokens Sample.boom VUndef
              eq_refl eq_refl eq_refl eq_refl eq_refl eq_refl eq_refl)
    as (Ht & _).
  rewrite Ht. reflexivity.
Defined.

(** X8.  When [getToken] calls back with neither an error nor a token set
    ([tokens] is [undefined] or [null]), reading [tokens.access_token]
    throws inside the callback, outside any [try]: the exception is left
    uncaught, and the attempt ends with no [success], [fail], [error] or
    [redirect], no profile fetch, and the strategy unchanged. *)
Theorem X8_exchange_without_token_set
    (E : Env) (s : Strategy) (r : gmap string value) (options e0 tokens : value) :
  truthy (query_field r "error") = false ->
  truthy (query_field r "code") = true ->
  getToken E (oauth2Client s) (query_field r "code") = [(e0, tokens)] ->
  truthy e0 = false ->
  nullish tokens = true ->
  let res := run (authenticate E (VObj r) options) s in
  (exists ex, trace_of res = [EvGetToken (query_field r "code"); EvUncaught ex]) /\
  count is_terminal (trace_of res) = 0%nat /\
  count is_profile_fetch (trace_of res) = 0%nat /\
  final_self res = s.
Proof.
  intros He Hc Hg He0 Hn res. subst res.
  destruct (on_tokens_no_tokens E (VObj r) e0 tokens {| self := s; tasks := [] |} He0 Hn)
    as [ex Ht].
  rewrite (authenticate_code_branch E s r options He Hc), Hg.
  rewrite (async_one _ _ _ _ _ _ Ht).
  split; [exists ex; reflexivity|]. repeat split; reflexivity.
Qed.

Lemma X8_exchange_without_token_set_witness :
  truthy (query_field Sample.req_code "error") = false /\
  truthy (query_field Sample.req_code "code") = true /\
  getToken Sample.env_no_tokens (oauth2Client Sample.strategy)
           (query_field Sample.req_code "code") = [(VNull, VUndef)] /\
  nullish VUndef = true /\
  count is_terminal
    (trace_of (run (authenticate Sample.env_no_tokens (VObj Sample.req_code) VUndef)
                   Sample.strategy)) = 0%nat.
Proof.
  do 4 (split; [reflexivity|]).
  exact (proj1 (proj2 (X8_exchange_without_token_set Sample.env_no_tokens Sample.strategy
                         Sample.req_code VUndef VNull VUndef
                         eq_refl eq_refl eq_refl eq_refl eq_refl))).
Defined.

Lemma on_profile_not_callable E req a rt err profile w :
  truthy err = false ->
  is_function (_verify (self w)) = false ->
  on_profile E req a rt (err, profile) w =
    ([EvError (if nullish (_verify (self w))
               then new_TypeError "Cannot read properties of undefined or null"
               else new_TypeError "self._verify is not a function")],
     w, Normal tt).
Proof.
  intros He Hf. unfold on_profile. rewrite He.
  match goal with |- context [try_catchM ?b _ _] => set (body := b) end.
  assert (Hb : body w =
    ([], w, Throw (if nullish (_verify (self w))
                   then new_TypeError "Cannot read properties of undefined or null"
                   else new_TypeError "self._verify is not a function"))).
  { subst body. rewrite bind_get_self.
    destruct (truthy (_passReqToCallback (self w)));
      rewrite bind_lift; unfold get_prop;
      (destruct (nullish (_verify (self w))); [reflexivity|]);
      destruct (strict_eq_num _ _);
      rewrite (apply_verify_not_fun _ _ _ _ Hf); reflexivity. }
  unfold try_catchM. rewrite Hb. reflexivity.
Qed.

(** X9.  With a verify that is not a function (the constructor accepts any
    truthy one), an attempt whose exchange and profile fetch succeed ends in
    one call of [error], with the [TypeError] that the failed call throws:
    the one of the call [self._verify(...)], or, for a verify that is
    [undefined] or [null], the one of reading its [length]; no verify call
    takes place and nothing propagates to the caller. *)
Theorem X9_verify_not_a_function
    (E : Env) (s : Strategy) (r : gmap string value)
    (options e0 tokens e1 profile : value) :
  truthy (query_field r "error") = false ->
  truthy (query_field r "code") = true ->
  getToken E (oauth2Client s) (query_field r "code") = [(e0, tokens)] ->
  truthy e0 = false ->
  nullish tokens = false ->
  userinfo_get E (oauth2Client (with_credentials s tokens)) = [(e1, profile)] ->
  truthy e1 = false ->
  is_function (_verify s) = false ->
  let res := run (authenticate E (VObj r) options) s in
  trace_of res =
    [EvGetToken (query_field r "code"); EvSetCredentials tokens;
     EvUserinfoGet (oauth2Client (with_credentials s tokens));
     EvError (if nullish (_verify s)
              then new_TypeError "Cannot read properties of undefined or null"
              else new_TypeError "self._verify is not a function")] /\
  count is_verify (trace_of res) = 0%nat /\
  completion_of res = Normal tt.
Proof.
  intros He Hc Hg He0 Hn Hu He1 Hf res. subst res.
  destruct (authenticate_exchange_ok E s r options e0 tokens He Hc Hg He0 Hn)
    as (t & w' & Ha & _ & ->).
  rewrite Hu in Ha.
  pose proof (on_profile_not_callable E (VObj r) (prop tokens "access_token")
                (js_or (prop tokens "refresh_token") VNull) e1 profile
                {| self := with_credentials s tokens; tasks := [] |} He1 Hf) as Hp.
  rewrite (async_one _ _ _ _ _ _ Hp) in Ha. injection Ha as <- <-.
  cbn [self with_credentials _verify].
  destruct (nullish (_verify s)); repeat split; reflexivity.
Qed.

Lemma X9_verify_not_a_function_witness :
  GoogleAPIsStrategy Sample.options Sample.not_a_function
    = Normal (built Sample.options Sample.not_a_function) /\
  truthy (query_field Sample.req_code "error") = false /\
  truthy (query_field Sample.req_code "code") = true /\
  getToken Sample.env (oauth2Client (built Sample.options Sample.not_a_function))
           (query_field Sample.req_code "code") = [(VNull, Sample.tokens)] /\
  nullish Sample.tokens = false /\
  is_function (_verify (built Sample.options Sample.not_a_function)) = false /\
  outcomes (trace_of (run (authenticate Sample.env (VObj Sample.req_code) VUndef)
                          (built Sample.options Sample.not_a_function)))
    = [EvError (new_TypeError "self._verify is not a function")].
Proof.
  do 6 (split; [reflexivity|]).
  destruct (X9_verify_not_a_function Sample.env (built Sample.options Sample.not_a_function)
              Sample.req_code VUndef VNull Sample.tokens VNull Sample.profile
              eq_refl eq_refl eq_refl eq_refl eq_refl eq_refl eq_refl eq_refl)
    as (Ht & _).
  rewrite Ht. reflexivity.
Defined.

(** ** What every invocation keeps *)

Section Calm.

Context (E : Env) (J : Strategy -> Prop) (P : event -> Prop).
Hypothesis caught_allowed : forall e, is_uncaught e = false -> P e.
Hypothesis credentials_free : forall s tokens, J s -> J (with_credentials s tokens).

Lemma calm_outcome e : is_outcome e = true -> P e.
Proof. intros H. apply caught_allowed, outcome_not_uncaught, H. Qed.

Ltac calm_step :=
  match goal with
  | |- keeps _ _ (if ?b then _ else _) => destruct b
  | |- keeps _ _ (lift _ ≫= _) => apply keeps_bind; [apply keeps_lift | intros ?]
  | |- keeps _ _ (emit _ ≫= _) =>
      apply keeps_bind; [apply keeps_emit, caught_allowed; reflexivity | intros _]
  | |- keeps _ _ (schedule _ ≫= _) => apply keeps_bind; [apply keeps_schedule | intros _]
  | |- keeps _ _ (get_self ≫= _) => apply keeps_get_self; intros ? ?
  | |- keeps _ _ (emit _) => apply keeps_emit, caught_allowed; reflexivity
  | |- keeps _ _ (throw _) => apply keeps_lift
  | |- keeps _ _ (mret _) => apply keeps_ret
  end.

Lemma apply_verify_calm fn args : keeps J P (apply_verify E fn args).
Proof.
  unfold apply_verify. destruct fn; try (apply keeps_lift).
  do 2 calm_step.
  apply keeps_bind.
  - apply keeps_for_each. intros d. apply keeps_verified, calm_outcome.
  - intros _. destruct (raised _); calm_step.
Qed.

Lemma on_profile_calm req a rt reply : keeps J P (on_profile E req a rt reply).
Proof.
  unfold on_profile. destruct reply as [err profile].
  calm_step; [calm_step|].
  apply keeps_try; [|intros ex; calm_step].
  do 4 calm_step; apply apply_verify_calm.
Qed.

Lemma on_profile_normal req a rt reply w :
  exists t w', on_profile E req a rt reply w = (t, w', Normal tt).
Proof.
  destruct reply as [err profile].
  destruct (truthy err) eqn:He.
  - rewrite (on_profile_error E req a rt err profile w He). eexists _, _. reflexivity.
  - destruct (is_function (_verify (self w))) eqn:Hf.
    + destruct (is_function_true _ Hf) as (f & n & Hfn).
      rewrite (on_profile_fun E req a rt err profile f n w He Hfn).
      eexists _, _. reflexivity.
    + destruct (on_profile_not_fun E req a rt err profile w He Hf) as [ex ->].
      eexists _, _. reflexivity.
Qed.

Lemma keeps_async_normal {A} (l : list A) (k : A -> M unit) :
  (forall a, In a l ->
     keeps J P (k a) /\ forall w, exists t w', k a w = (t, w', Normal tt)) ->
  keeps J P (async l k).
Proof.
  induction l as [|a l IH]; intros Hk; [apply keeps_ret|].
  destruct (Hk a (or_introl eq_refl)) as [Hka Hna].
  simpl. apply keeps_bind.
  - intros w Hw. destruct (Hna w) as (t & w' & Hr).
    rewrite (try_normal _ _ _ _ _ _ Hr), <- Hr. apply Hka, Hw.
  - intros _. apply keeps_bind.
    + apply keeps_take_tasks. intros ts. apply keeps_for_each.
      intros d. apply keeps_verified, calm_outcome.
    + intros _. apply IH. intros b Hb. apply Hk. right. exact Hb.
Qed.

Lemma on_tokens_calm req reply : keeps J P (on_tokens E req reply).
Proof.
  unfold on_tokens. destruct reply as [err tokens].
  calm_step; [do 2 calm_step|].
  do 2 calm_step.
  apply keeps_bind.
  - unfold setCredentials. do 2 calm_step.
    apply keeps_put_self, credentials_free. assumption.
  - intros _. do 2 calm_step.
    apply keeps_async_normal. intros reply _. split.
    + apply on_profile_calm.
    + apply on_profile_normal.
Qed.

End Calm.

Lemma count_zero_Forall p t :
  Forall (fun e => p e = false) t -> count p t = 0%nat.
Proof.
  unfold count. induction 1 as [|e t He _ IH]; [reflexivity|].
  simpl. rewrite He. exact IH.
Qed.

Lemma same_but_credentials_refl s : same_but_credentials s s.
Proof. repeat split. Qed.

Lemma authenticate_frame E req options s0 :
  keeps (same_but_credentials s0) (fun _ => True) (authenticate E req options).
Proof.
  unfold authenticate. cbv zeta.
  do 3 keeps_step.
  - do 2 keeps_step; repeat keeps_step.
  - do 2 keeps_step.
    + apply keeps_get_self. intros s Hs. keeps_step.
      apply keeps_async; [intros; exact I | intros; exact I|].
      intros reply. apply on_tokens_calm; [intros; exact I|].
      intros s1 tokens H. exact H.
    + apply keeps_get_self. intros s Hs. repeat keeps_step.
Qed.

(** X10.  Invocations of [authenticate] change nothing of a strategy but the
    credentials of its client: in every strategy reached from [s0], whatever
    the requests, the options and the collaborators did, the name, the
    verify callback, [_passReqToCallback], [_scope] and the client's
    [clientID], [clientSecret] and [redirectURL] are those of [s0]. *)
Theorem X10_only_credentials_change (s0 s : Strategy) :
  reachable s0 s -> same_but_credentials s0 s.
Proof.
  induction 1 as [|s E req options _ IH]; [apply same_but_credentials_refl|].
  apply (authenticate_frame E req options s0 {| self := s; tasks := [] |} IH).
Qed.

Lemma X10_only_credentials_change_witness :
  reachable Sample.strategy
    (final_self (run (authenticate Sample.env (VObj Sample.req_code) VUndef)
                     Sample.strategy)) /\
  credentials (oauth2Client
    (final_self (run (authenticate Sample.env (VObj Sample.req_code) VUndef)
                     Sample.strategy))) = Sample.tokens /\
  same_but_credentials Sample.strategy
    (final_self (run (authenticate Sample.env (VObj Sample.req_code) VUndef)
                     Sample.strategy)).
Proof.
  assert (Hr : reachable Sample.strategy
    (final_self (run (authenticate Sample.env (VObj Sample.req_code) VUndef)
                     Sample.strategy))).
  { apply reach_authenticate, reach_new. }
  split; [exact Hr|]. split; [reflexivity|].
  exact (X10_only_credentials_change _ _ Hr).
Defined.

Lemma on_tokens_normal E req err tokens w :
  truthy err = true \/ nullish tokens = false ->
  exists t w', on_tokens E req (err, tokens) w = (t, w', Normal tt).
Proof.
  intros H. destruct (truthy err) eqn:He.
  - destruct (on_tokens_error E req err tokens w He) as (e & _ & ->).
    eexists _, _. reflexivity.
  - destruct H as [H|Hn]; [discriminate|].
    rewrite (on_tokens_ok E req err tokens w He Hn).
    match goal with |- context [async ?l ?k ?w0] =>
      destruct (async_normal k l w0) as (t & w' & ->) end.
    eexists _, _. reflexivity.
Qed.

Lemma async_failures E req s replies :
  Forall (fun reply => truthy reply.1 = true) replies ->
  exists errs,
    Forall2 (fun reply e =>
               _createOAuthError E (VStr "Failed to obtain access token") reply.1
                 = Normal e) replies errs /\
    async replies (on_tokens E req) {| self := s; tasks := [] |} =
      (map EvError errs, {| self := s; tasks := [] |}, Normal tt).
Proof.
  induction 1 as [|[err tokens] rest Herr _ IH].
  - exists []. split; [constructor | reflexivity].
  - destruct IH as (errs & Hall & Hrest).
    destruct (on_tokens_error E req err tokens {| self := s; tasks := [] |} Herr)
      as (e & He & Ht).
    exists (e :: errs). split; [constructor; assumption|].
    rewrite (async_cons _ _ _ _ _ _ _ Ht). cbn [self tasks uncaught_events map app].
    rewrite Hrest. reflexivity.
Qed.

(** X11.  The [options] argument matters on the first leg only: once the
    query carries an error or a code, [authenticate] does the same whatever
    options it is given. *)
Theorem X11_options_only_for_redirect
    (E : Env) (s : Strategy) (r : gmap string value) (options1 options2 : value) :
  truthy (query_field r "error") = true \/ truthy (query_field r "code") = true ->
  run (authenticate E (VObj r) options1) s = run (authenticate E (VObj r) options2) s.
Proof.
  intros H. destruct (truthy (query_field r "error")) eqn:He.
  - rewrite !(authenticate_error_branch E s r _ He). reflexivity.
  - destruct H as [H|Hc]; [discriminate|].
    rewrite !(authenticate_code_branch E s r _ He Hc). reflexivity.
Qed.

Lemma X11_options_only_for_redirect_witness :
  (truthy (query_field Sample.req_code "error") = true \/
   truthy (query_field Sample.req_code "code") = true) /\
  run (authenticate Sample.env (VObj Sample.req_code) VUndef) Sample.strategy =
  run (authenticate Sample.env (VObj Sample.req_code) Sample.call_options) Sample.strategy.
Proof.
  split; [right; reflexivity|].
  apply (X11_options_only_for_redirect Sample.env Sample.strategy Sample.req_code).
  right. reflexivity.
Defined.

(** X12.  Nothing guards against a collaborator that calls back more than
    once: when [getToken] invokes its callback several times with an error,
    [authenticate] calls [error] once per invocation, each time with that
    failure normalized by [_createOAuthError], and does nothing else. *)
Theorem X12_error_per_exchange_callback
    (E : Env) (s : Strategy) (r : gmap string value) (options : value) :
  truthy (query_field r "error") = false ->
  truthy (query_field r "code") = true ->
  Forall (fun reply => truthy reply.1 = true)
         (getToken E (oauth2Client s) (query_field r "code")) ->
  let replies := getToken E (oauth2Client s) (query_field r "code") in
  let res := run (authenticate E (VObj r) options) s in
  exists errs,
    Forall2 (fun reply e =>
               _createOAuthError E (VStr "Failed to obtain access token") reply.1
                 = Normal e) replies errs /\
    trace_of res = EvGetToken (query_field r "code") :: map EvError errs /\
    count is_outcome (trace_of res) = List.length replies /\
    final_self res = s.
Proof.
  intros He Hc Hall replies res. subst res.
  destruct (async_failures E (VObj r) s replies Hall) as (errs & H2 & Ha).
  exists errs. split; [exact H2|].
  rewrite (authenticate_code_branch E s r options He Hc). fold replies. rewrite Ha.
  split; [reflexivity|]. split; [|reflexivity].
  unfold trace_of, count. cbn [prepend fst app List.filter is_outcome].
  rewrite (Forall2_length _ _ _ H2).
  clear. induction errs as [|e errs IH]; [reflexivity|]. simpl. rewrite IH. reflexivity.
Qed.

Lemma X12_error_per_exchange_callback_witness :
  truthy (query_field Sample.req_code "error") = false /\
  truthy (query_field Sample.req_code "code") = true /\
  Forall (fun reply => truthy reply.1 = true)
         (getToken Sample.env_two_failures (oauth2Client Sample.strategy)
                   (query_field Sample.req_code "code")) /\
  count is_outcome
    (trace_of (run (authenticate Sample.env_two_failures (VObj Sample.req_code) VUndef)
                   Sample.strategy)) = 2%nat.
Proof.
  assert (Hall : Forall (fun reply => truthy reply.1 = true)
            (getToken Sample.env_two_failures (oauth2Client Sample.strategy)
                      (query_field Sample.req_code "code"))).
  { repeat constructor. }
  split; [reflexivity|]. split; [reflexivity|]. split; [exact Hall|].
  destruct (X12_error_per_exchange_callback Sample.env_two_failures Sample.strategy
              Sample.req_code VUndef eq_refl eq_refl Hall)
    as (errs & _ & _ & Hcount & _).
  exact Hcount.
Defined.

(** X13.  After a successful exchange the token set is the client's
    credentials when the invocation ends, whatever the profile endpoint
    replies (an error, a profile, several replies, none) and whatever the
    verify callback does; and nothing propagates to the caller. *)
Theorem X13_credentials_persist
    (E : Env) (s : Strategy) (r : gmap string value) (options e0 tokens : value) :
  truthy (query_field r "error") = false ->
  truthy (query_field r "code") = true ->
  getToken E (oauth2Client s) (query_field r "code") = [(e0, tokens)] ->
  truthy e0 = false ->
  nullish tokens = false ->
  let res := run (authenticate E (VObj r) options) s in
  final_self res = with_credentials s tokens /\
  credentials (oauth2Client (final_self res)) = tokens /\
  completion_of res = Normal tt.
Proof.
  intros He Hc Hg He0 Hn res. subst res.
  destruct (authenticate_exchange_ok E s r options e0 tokens He Hc Hg He0 Hn)
    as (t & w' & Ha & _ & ->).
  assert (Hk : keeps (fun x => x = with_credentials s tokens) (fun _ => True)
                 (async (userinfo_get E (oauth2Client (with_credentials s tokens)))
                        (on_profile E (VObj r) (prop tokens "access_token")
                                    (js_or (prop tokens "refresh_token") VNull)))).
  { apply keeps_async_normal; [intros; exact I|].
    intros reply _. split; [apply on_profile_calm; intros; exact I|].
    apply on_profile_normal. }
  destruct (Hk {| self := with_credentials s tokens; tasks := [] |} eq_refl) as [_ Hf].
  rewrite Ha in Hf. unfold final_self in *. cbn [fst snd] in *.
  rewrite Hf. repeat split; reflexivity.
Qed.

Lemma X13_credentials_persist_witness :
  truthy (query_field Sample.req_code "error") = false /\
  truthy (query_field Sample.req_code "code") = true /\
  getToken Sample.env_profile_fails (oauth2Client Sample.strategy)
           (query_field Sample.req_code "code") = [(VNull, Sample.tokens)] /\
  nullish Sample.tokens = false /\
  credentials (oauth2Client
    (final_self (run (authenticate Sample.env_profile_fails (VObj Sample.req_code) VUndef)
                     Sample.strategy))) = Sample.tokens.
Proof.
  do 4 (split; [reflexivity|]).
  exact (proj1 (proj2 (X13_credentials_persist Sample.env_profile_fails Sample.strategy
                         Sample.req_code VUndef VNull Sample.tokens
                         eq_refl eq_refl eq_refl eq_refl eq_refl))).
Defined.

(** X14.  The only exception that [authenticate] leaves uncaught is the one
    of X8: when every callback of [getToken] brings an error or a token set,
    no exception escapes, whatever the request, the options, the profile
    endpoint and the verify callback are, and [authenticate] returns
    normally. *)
Theorem X14_nothing_uncaught
    (E : Env) (s : Strategy) (r : gmap string value) (options : value) :
  Forall (fun reply => truthy reply.1 = true \/ nullish reply.2 = false)
         (getToken E (oauth2Client s) (query_field r "code")) ->
  let res := run (authenticate E (VObj r) options) s in
  count is_uncaught (trace_of res) = 0%nat /\
  completion_of res = Normal tt.
Proof.
  intros Hall res. subst res.
  destruct (truthy (query_field r "error")) eqn:He.
  { rewrite (authenticate_error_branch E s r options He).
    destruct (strict_eq_str _ _); split; reflexivity. }
  destruct (truthy (query_field r "code")) eqn:Hc.
  2:{ destruct (authenticate_redirect_branch E s r options He Hc) as (params & _ & ->).
      split; reflexivity. }
  rewrite (authenticate_code_branch E s r options He Hc).
  assert (Hk : keeps (fun _ => True) (fun e => is_uncaught e = false)
                 (async (getToken E (oauth2Client s) (query_field r "code"))
                        (on_tokens E (VObj r)))).
  { apply keeps_async_normal; [intros e H; exact H|].
    intros [err tokens] Hin. split.
    - apply on_tokens_calm; [intros e H; exact H | intros; exact I].
    - intros w. apply on_tokens_normal.
      exact (proj1 (List.Forall_forall _ _) Hall _ Hin). }
  destruct (Hk {| self := s; tasks := [] |} I) as [Hev _].
  destruct (async_normal (on_tokens E (VObj r))
              (getToken E (oauth2Client s) (query_field r "code"))
              {| self := s; tasks := [] |}) as (t & w' & Ha).
  rewrite Ha in *. unfold trace_of, completion_of in *. cbn [prepend fst snd app] in *.
  split; [|reflexivity].
  rewrite count_cons. cbn [is_uncaught]. apply count_zero_Forall, Hev.
Qed.

Lemma X14_nothing_uncaught_witness :
  Forall (fun reply => truthy reply.1 = true \/ nullish reply.2 = false)
         (getToken Sample.env_done_then_throw (oauth2Client Sample.strategy)
                   (query_field Sample.req_code "code")) /\
  count is_uncaught
    (trace_of (run (authenticate Sample.env_done_then_throw (VObj Sample.req_code) VUndef)
                   Sample.strategy)) = 0%nat.
Proof.
  assert (Hall : Forall (fun reply => truthy reply.1 = true \/ nullish reply.2 = false)
            (getToken Sample.env_done_then_throw (oauth2Client Sample.strategy)
                      (query_field Sample.req_code "code"))).
  { change (Forall (fun reply => truthy reply.1 = true \/ nullish reply.2 = false)
              [(VNull, Sample.tokens)]).
    constructor; [right; reflexivity | constructor]. }
  split; [exact Hall|].
  exact (proj1 (X14_nothing_uncaught Sample.env_done_then_throw Sample.strategy
                  Sample.req_code VUndef Hall)).
Defined.

(** ** The request-passthrough flag and the arguments of the verify callback *)

Lemma trace_of_prepend {A} t (res : result A) :
  trace_of (prepend t res) = t ++ trace_of res.
Proof. destruct res as [[t' w] c]. reflexivity. Qed.

Lemma final_self_prepend {A} t (res : result A) :
  final_self (prepend t res) = final_self res.
Proof. destruct res as [[t' w] c]. reflexivity. Qed.

Lemma keeps_async_in {A} (J : Strategy -> Prop) (P : event -> Prop)
    (l : list A) (k : A -> M unit) :
  (forall e, is_outcome e = true -> P e) ->
  (forall ex, P (EvUncaught ex)) ->
  (forall a, In a l -> keeps J P (k a)) ->
  keeps J P (async l k).
Proof.
  intros Hout Hunc. induction l as [|a l IH]; intros Hk; [apply keeps_ret|].
  simpl. apply keeps_bind.
  - apply keeps_try; [apply Hk; left; reflexivity|].
    intros ex. apply keeps_emit, Hunc.
  - intros _. apply keeps_bind.
    + apply keeps_take_tasks. intros ts. apply keeps_for_each.
      intros d. apply keeps_verified, Hout.
    + intros _. apply IH. intros b Hb. apply Hk. right. exact Hb.
Qed.

Lemma same_client s0 s tokens :
  same_but_credentials s0 s ->
  oauth2Client (with_credentials s tokens) = oauth2Client (with_credentials s0 tokens).
Proof.
  intros (_ & _ & _ & _ & Hid & Hsecret & Hurl).
  unfold with_credentials. cbn [oauth2Client]. rewrite Hid, Hsecret, Hurl. reflexivity.
Qed.

Lemma same_but_credentials_with s0 s tokens :
  same_but_credentials s0 s -> same_but_credentials s0 (with_credentials s tokens).
Proof. intros H. exact H. Qed.

Section Disabled.

Context (E : Env) (s : Strategy) (r : gmap string value).
Hypothesis flag_unset : _passReqToCallback s = VUndef.

Lemma disabled_call_outcome e : is_outcome e = true -> disabled_call E s r e.
Proof. destruct e; simpl; intros; try discriminate; exact I. Qed.

Lemma disabled_run_events vr : Forall (disabled_call E s r) (run_events vr).
Proof.
  unfold run_events. apply Forall_app. split.
  - apply List.Forall_forall. intros e He. apply List.in_map_iff in He.
    destruct He as (d & <- & _). apply disabled_call_outcome, resolution_is_outcome.
  - destruct (raised vr); repeat constructor.
Qed.

Lemma on_profile_disabled e0 tokens e1 profile :
  In (e0, tokens) (getToken E (oauth2Client s) (query_field r "code")) ->
  truthy e0 = false ->
  In (e1, profile) (userinfo_get E (oauth2Client (with_credentials s tokens))) ->
  keeps (same_but_credentials s) (disabled_call E s r)
        (on_profile E (VObj r) (prop tokens "access_token")
                    (js_or (prop tokens "refresh_token") VNull) (e1, profile)).
Proof.
  intros Hin0 He0 Hin1 w Hw.
  destruct (truthy e1) eqn:He1.
  { rewrite (on_profile_error E _ _ _ e1 profile w He1).
    split; [repeat constructor | exact Hw]. }
  destruct (is_function (_verify (self w))) eqn:Hfun.
  - destruct (is_function_true _ Hfun) as (f & n & Hf).
    rewrite (on_profile_fun E _ _ _ e1 profile f n w He1 Hf).
    pose proof Hw as (Hname & Hverify & Hflag & Hrest).
    rewrite Hflag, flag_unset. cbn [truthy dispatch_args].
    split; [|exact Hw].
    unfold trace_of. cbn [fst]. constructor; [|apply disabled_run_events].
    exists f, n, e0, tokens, e1, profile.
    rewrite <- Hverify. repeat split; assumption.
  - destruct (on_profile_not_fun E (VObj r) (prop tokens "access_token")
                (js_or (prop tokens "refresh_token") VNull) e1 profile w He1 Hfun)
      as [ex ->].
    split; [repeat constructor | exact Hw].
Qed.

Lemma on_tokens_disabled reply :
  In reply (getToken E (oauth2Client s) (query_field r "code")) ->
  keeps (same_but_credentials s) (disabled_call E s r) (on_tokens E (VObj r) reply).
Proof.
  destruct reply as [e0 tokens]. intros Hin w Hw.
  destruct (truthy e0) eqn:He0.
  { destruct (on_tokens_error E (VObj r) e0 tokens w He0) as (e & _ & ->).
    split; [repeat constructor | exact Hw]. }
  destruct (nullish tokens) eqn:Hn.
  { destruct (on_tokens_no_tokens E (VObj r) e0 tokens w He0 Hn) as [ex ->].
    split; [constructor | exact Hw]. }
  rewrite (on_tokens_ok E (VObj r) e0 tokens w He0 Hn). cbv zeta.
  rewrite trace_of_prepend, final_self_prepend, (same_client s (self w) tokens Hw).
  assert (Hk : keeps (same_but_credentials s) (disabled_call E s r)
                 (async (userinfo_get E (oauth2Client (with_credentials s tokens)))
                        (on_profile E (VObj r) (prop tokens "access_token")
                                    (js_or (prop tokens "refresh_token") VNull)))).
  { apply keeps_async_in; [apply disabled_call_outcome | intros; exact I|].
    intros [e1 profile] Hin1. apply (on_profile_disabled e0 tokens e1 profile); assumption. }
  destruct (Hk {| self := with_credentials (self w) tokens; tasks := tasks w |}
               (same_but_credentials_with _ _ tokens Hw)) as [Hev Hfin].
  split; [|exact Hfin].
  apply Forall_app. split; [repeat constructor | exact Hev].
Qed.

Lemma authenticate_disabled options :
  Forall (disabled_call E s r) (trace_of (run (authenticate E (VObj r) options) s)).
Proof.
  destruct (truthy (query_field r "error")) eqn:He.
  { rewrite (authenticate_error_branch E s r options He).
    destruct (strict_eq_str _ _); repeat constructor. }
  destruct (truthy (query_field r "code")) eqn:Hc.
  2:{ destruct (authenticate_redirect_branch E s r options He Hc) as (params & _ & ->).
      repeat constructor. }
  rewrite (authenticate_code_branch E s r options He Hc), trace_of_prepend.
  apply Forall_app. split; [repeat constructor|].
  apply (keeps_async_in (same_but_credentials s) (disabled_call E s r)).
  - apply disabled_call_outcome.
  - intros; exact I.
  - intros reply Hin. apply on_tokens_disabled, Hin.
  - apply same_but_credentials_refl.
Qed.

End Disabled.

(** C10.  A strategy built by the constructor has no [_passReqToCallback],
    and no invocation of [authenticate] assigns one: in every strategy
    reached from it the flag is [undefined].  So every call of the verify
    callback is made by the passthrough-disabled dispatch: its arguments are
    the access token and the resolved refresh token of a token set that
    [getToken] delivered for the request's code, then (for a five-parameter
    callback) the empty object, then the profile that the profile endpoint
    delivered to the client holding that token set, then [verified].  The
    first argument is the access token; the request is not passed. *)
Theorem C10_passthrough_never_enabled
    (options verify : value) (s0 s : Strategy) :
  GoogleAPIsStrategy options verify = Normal s0 ->
  reachable s0 s ->
  _passReqToCallback s0 = VUndef /\
  _passReqToCallback s = VUndef /\
  forall (E : Env) (r : gmap string value) (opts : value),
    let res := run (authenticate E (VObj r) opts) s in
    _passReqToCallback (final_self res) = VUndef /\
    forall args, In (EvVerify args) (trace_of res) ->
      exists f n e0 tokens e1 profile,
        _verify s0 = VFun f n /\
        In (e0, tokens) (getToken E (oauth2Client s) (query_field r "code")) /\
        truthy e0 = false /\
        In (e1, profile) (userinfo_get E (oauth2Client (with_credentials s tokens))) /\
        truthy e1 = false /\
        args = dispatch_args false n (VObj r) (prop tokens "access_token")
                 (js_or (prop tokens "refresh_token") VNull) profile /\
        (args = [prop tokens "access_token"; js_or (prop tokens "refresh_token") VNull;
                 profile; verified_fn] \/
         args = [prop tokens "access_token"; js_or (prop tokens "refresh_token") VNull;
                 VObj ∅; profile; verified_fn]).
Proof.
  intros Hnew Hreach.
  destruct (constructor_fields _ _ _ Hnew) as (_ & _ & _ & Hflag & _).
  assert (Hs : same_but_credentials s0 s).
  { clear Hnew Hflag. induction Hreach as [|s E req opts _ IH].
    - apply same_but_credentials_refl.
    - apply (authenticate_frame E req opts s0 {| self := s; tasks := [] |} IH). }
  assert (Hflag_s : _passReqToCallback s = VUndef).
  { destruct Hs as (_ & _ & H & _). rewrite H. exact Hflag. }
  split; [exact Hflag|]. split; [exact Hflag_s|].
  intros E r opts res. split.
  - destruct (authenticate_frame E (VObj r) opts s {| self := s; tasks := [] |}
                (same_but_credentials_refl s)) as (_ & _ & _ & H & _).
    subst res. unfold run. rewrite H. exact Hflag_s.
  - intros args Hin.
    pose proof (proj1 (List.Forall_forall _ _)
                  (authenticate_disabled E s r Hflag_s opts) _ Hin) as Hd.
    destruct Hd as (f & n & e0 & tokens & e1 & profile & Hf & Hin0 & He0 & Hin1 & He1 & ->).
    exists f, n, e0, tokens, e1, profile.
    destruct Hs as (_ & Hv & _). rewrite <- Hv.
    do 5 (split; [assumption|]).
    split; [reflexivity|].
    destruct (Z.eqb n 5); [right | left]; reflexivity.
Qed.

Lemma C10_passthrough_never_enabled_witness :
  GoogleAPIsStrategy Sample.options Sample.verify4 = Normal Sample.strategy /\
  reachable Sample.strategy
    (final_self (run (authenticate Sample.env (VObj Sample.req_code) VUndef)
                     Sample.strategy)) /\
  _passReqToCallback
    (final_self (run (authenticate Sample.env (VObj Sample.req_code) VUndef)
                     Sample.strategy)) = VUndef /\
  In (EvVerify [VStr "AT1"; VNull; Sample.profile; verified_fn])
     (trace_of (run (authenticate Sample.env (VObj Sample.req_code) VUndef)
                    Sample.strategy)) /\
  exists tokens profile,
    [VStr "AT1"; VNull; Sample.profile; verified_fn] =
      dispatch_args false 4 (VObj Sample.req_code) (prop tokens "access_token")
        (js_or (prop tokens "refresh_token") VNull) profile.
Proof.
  assert (Hr : reachable Sample.strategy
    (final_self (run (authenticate Sample.env (VObj Sample.req_code) VUndef)
                     Sample.strategy))).
  { apply reach_authenticate, reach_new. }
  assert (Hin : In (EvVerify [VStr "AT1"; VNull; Sample.profile; verified_fn])
     (trace_of (run (authenticate Sample.env (VObj Sample.req_code) VUndef)
                    Sample.strategy))).
  { right. right. right. left. reflexivity. }
  split; [reflexivity|]. split; [exact Hr|].
  split; [exact (proj1 (proj2 (C10_passthrough_never_enabled Sample.options Sample.verify4
                                Sample.strategy _ eq_refl Hr)))|].
  split; [exact Hin|].
  destruct (C10_passthrough_never_enabled Sample.options Sample.verify4
              Sample.strategy Sample.strategy eq_refl (reach_new _))
    as (_ & _ & H).
  destruct (H Sample.env Sample.req_code VUndef) as [_ Hargs].
  destruct (Hargs _ Hin) as (f & n & e0 & tokens & e1 & profile & Hf & _ & _ & _ & _ & Ha & _).
  injection Hf as <- <-.
  exists tokens, profile. exact Ha.
Defined.
